(** * store-api: the order-ingestion handler and its bootstrap

    A shallow embedding of [src/store-api/main.go]: the character strip
    [SanitizeInput], the request handler [buyHandler], and the start-up
    sequence [initDB] / [initRedis] / [main].  Go strings are byte
    sequences and are embedded as [string] (a list of [ascii] bytes); Go
    [int] is embedded as [Z] with its 64-bit range written out where the
    code depends on it. *)

From Stdlib Require Import ZArith List String Ascii Bool Lia.
From Stdlib Require Import DecimalString.
Import ListNotations.

Set Warnings "-register-all".

Local Open Scope string_scope.
Local Open Scope Z_scope.

(** ** The part of Go's [strings] package the program calls *)

Module Strings.

(** Leftmost, non-overlapping replacement of a non-empty pattern.
    [skip] counts the bytes of a match that are still to be dropped
    (in Go: [start = j + len(old)]). *)
Fixpoint replace_from (old new : string) (skip : nat) (s : string) : string :=
  match s with
  | EmptyString => EmptyString
  | String c t =>
      match skip with
      | S k => replace_from old new k t
      | O =>
          if prefix old s
          then new ++ replace_from old new (String.length old - 1) t
          else String c (replace_from old new 0 t)
      end
  end.

(** The empty pattern matches before every byte and at the end.  (Go
    steps by UTF-8 sequence here; the program never passes an empty
    pattern.) *)
Fixpoint intersperse (new s : string) : string :=
  match s with
  | EmptyString => new
  | String c t => new ++ String c (intersperse new t)
  end.

(** [strings.ReplaceAll(s, old, new)]. *)
Definition ReplaceAll (s old new : string) : string :=
  if String.eqb old new then s
  else match old with
       | EmptyString => intersperse new s
       | String _ _ => replace_from old new 0 s
       end.

End Strings.

(** ** SanitizeInput *)

(** [SanitizeInput removes potentially dangerous characters] *)
Definition SanitizeInput (input : string) : string :=
  let safe := Strings.ReplaceAll input "<" "" in
  let safe := Strings.ReplaceAll safe ">" "" in
  let safe := Strings.ReplaceAll safe "'" "" in
  let safe := Strings.ReplaceAll safe ";" "" in
  safe.

(** The deny list as the specification words it: the four characters
    [<], [>], ['] and [;]. *)
Definition denied (c : ascii) : bool :=
  (Ascii.eqb c "<" || Ascii.eqb c ">" || Ascii.eqb c "'" || Ascii.eqb c ";")%bool.

(** Keep the bytes satisfying [keep], in their original order. *)
Fixpoint filter_string (keep : ascii -> bool) (s : string) : string :=
  match s with
  | EmptyString => EmptyString
  | String c t =>
      if keep c then String c (filter_string keep t) else filter_string keep t
  end.

(** The specification's reading of sanitization: every occurrence of a
    denied character removed, every other character kept in place. *)
Definition strip_denylist (s : string) : string :=
  filter_string (fun c => negb (denied c)) s.

(** [occurs c s]: the byte [c] occurs somewhere in [s]. *)
Fixpoint occurs (c : ascii) (s : string) : bool :=
  match s with
  | EmptyString => false
  | String d t => (Ascii.eqb d c || occurs c t)%bool
  end.

(** ** The part of [encoding/json] the handler relies on

    The request body is embedded after lexing: [None] is a body with no
    well-formed JSON value at its start (empty, or a syntax error), and
    [Some v] is the first value of the stream, which is all that
    [Decoder.Decode] consumes. *)

Module Json.

(** A number literal: an integer literal, or one with a fraction or an
    exponent part (which [strconv.ParseInt] refuses). *)
Inductive number : Type :=
| Integer (z : Z)
| Fractional.

Inductive value : Type :=
| Null
| Bool (b : bool)
| Number (n : number)
| Str (s : string)
| Array (items : list value)
| Object (members : list (string * value)).

(** ASCII case folding; none of the two field names has a letter with
    a non-ASCII fold. *)
Definition to_lower (c : ascii) : ascii :=
  let n := nat_of_ascii c in
  if (Nat.leb 65 n && Nat.leb n 90)%bool then ascii_of_nat (n + 32) else c.

Fixpoint fold_name (s : string) : string :=
  match s with
  | EmptyString => EmptyString
  | String c t => String (to_lower c) (fold_name t)
  end.

Definition EqualFold (a b : string) : bool :=
  String.eqb (fold_name a) (fold_name b).

End Json.

(** The range of Go's [int] on a 64-bit platform. *)
Definition min_int : Z := - 2 ^ 63.
Definition max_int : Z := 2 ^ 63 - 1.

(** Go's [error] values are embedded by their message. *)
Definition error : Type := string.

Record OrderRequest : Type := mkOrderRequest {
  ProductID : string;   (* json:"product_id" *)
  Quantity  : Z         (* json:"quantity" *)
}.

Inductive field : Type := FProductID | FQuantity.

(** A member key selects a struct field by exact tag name first, then by
    case-insensitive match; other keys are ignored. *)
Definition field_of_key (k : string) : option field :=
  if String.eqb k "product_id" then Some FProductID
  else if String.eqb k "quantity" then Some FQuantity
  else if Json.EqualFold k "product_id" then Some FProductID
  else if Json.EqualFold k "quantity" then Some FQuantity
  else None.

(** Storing one member into the struct: [null] leaves the field alone, a
    value of the wrong JSON kind or an integer out of range is an
    [UnmarshalTypeError]. *)
Definition decode_member (req : OrderRequest) (m : string * Json.value)
  : error + OrderRequest :=
  match field_of_key (fst m) with
  | None => inr req
  | Some FProductID =>
      match snd m with
      | Json.Null => inr req
      | Json.Str s => inr (mkOrderRequest s (Quantity req))
      | _ => inl "json: cannot unmarshal into Go struct field OrderRequest.product_id of type string"
      end
  | Some FQuantity =>
      match snd m with
      | Json.Null => inr req
      | Json.Number (Json.Integer z) =>
          if ((min_int <=? z) && (z <=? max_int))%bool
          then inr (mkOrderRequest (ProductID req) z)
          else inl "json: cannot unmarshal number into Go struct field OrderRequest.quantity of type int"
      | _ => inl "json: cannot unmarshal into Go struct field OrderRequest.quantity of type int"
      end
  end.

(** Members are stored in stream order, so a later duplicate wins.  Go
    keeps decoding after a type error and reports the first one at the
    end; the handler discards the struct in that case, so the embedding
    stops at the first error. *)
Fixpoint decode_members (req : OrderRequest) (ms : list (string * Json.value))
  : error + OrderRequest :=
  match ms with
  | [] => inr req
  | m :: ms' =>
      match decode_member req m with
      | inl e => inl e
      | inr req' => decode_members req' ms'
      end
  end.

(** [json.NewDecoder(r.Body).Decode(&req)] on [var req OrderRequest]. *)
Definition Decode (body : option Json.value) : error + OrderRequest :=
  let req := mkOrderRequest "" 0 in
  match body with
  | None => inl "invalid character or unexpected end of JSON input"
  | Some Json.Null => inr req
  | Some (Json.Object ms) => decode_members req ms
  | Some _ => inl "json: cannot unmarshal into Go value of type main.OrderRequest"
  end.

(** [key_present f ms]: some member of the object is stored into field [f]. *)
Definition key_present (f : field) (ms : list (string * Json.value)) : bool :=
  existsb (fun m => match field_of_key (fst m), f with
                    | Some FProductID, FProductID => true
                    | Some FQuantity, FQuantity => true
                    | _, _ => false
                    end) ms.

(** ** The world the program runs in *)

(** One row of the [orders] table created by [initDB]. *)
Record Row : Type := mkRow {
  row_id         : Z;        (* id SERIAL PRIMARY KEY *)
  row_product_id : string;   (* product_id VARCHAR(50) *)
  row_quantity   : Z;        (* quantity INT *)
  row_status     : string;   (* status VARCHAR(20) *)
  row_created_at : Z         (* created_at TIMESTAMP DEFAULT CURRENT_TIMESTAMP *)
}.

(** The table with the sequence behind its [SERIAL] column. *)
Record Table : Type := mkTable {
  rows   : list Row;
  serial : Z
}.

(** A dynamically typed Go value, as stored in [map[string]interface{}]. *)
Inductive iface : Type :=
| IInt (z : Z)
| IString (s : string).

(** A [map[string]interface{}] as [encoding/json] writes it: keys in
    sorted order.  Marshalled messages and bodies are embedded by the map
    they encode. *)
Definition gomap : Type := list (string * iface).

(** What the handler has written to its [http.ResponseWriter]. *)
Inductive payload : Type :=
| Text (s : string)
| JSON (m : gomap).

Record Response : Type := mkResponse {
  StatusCode  : Z;
  ContentType : string;
  Payload     : payload
}.

Record Request : Type := mkRequest {
  Method : string;
  Body   : option Json.value
}.

(** Calls that leave the process, in program order. *)
Inductive Event : Type :=
| EvOpen (attempt : nat) (err : option error)
| EvDBPing (attempt : nat) (err : option error)
| EvSleep (seconds : Z)
| EvCreateTable (err : option error)
| EvRedisPing (err : option error)
| EvInsert (product_id : string) (quantity : Z) (res : error + Z)
| EvPublish (chan : string) (msg : gomap) (err : option error)
| EvLog (line : string)
| EvListen (addr : string) (err : option error)
| EvExit (code : Z).

Record World : Type := mkWorld {
  orders  : option Table;             (* [None]: the table does not exist *)
  channel : list (string * gomap);    (* messages the broker has accepted *)
  trace   : list Event
}.

(** A computation either returns, or has ended the process ([os.Exit]). *)
Inductive outcome (A : Type) : Type :=
| Done (a : A)
| Exited (code : Z).
Arguments Done {A} a.
Arguments Exited {A} code.

Definition Proc (A : Type) : Type := World -> outcome A * World.

Definition ret {A} (a : A) : Proc A := fun w => (Done a, w).

Definition bind {A B} (c : Proc A) (k : A -> Proc B) : Proc B :=
  fun w => match c w with
           | (Done a, w') => k a w'
           | (Exited code, w') => (Exited code, w')
           end.

Notation "x <- c ;; k" := (bind c (fun x => k))
  (at level 61, c at next level, right associativity).
Notation "c ;; k" := (bind c (fun _ => k))
  (at level 61, right associativity).

Definition emit (e : Event) : Proc unit :=
  fun w => (Done tt, mkWorld (orders w) (channel w) (trace w ++ [e])).

(** [%d] of the [fmt] package. *)
Definition fmt_d (z : Z) : string := NilZero.string_of_int (Z.to_int z).

Definition Println (line : string) : Proc unit := emit (EvLog line).

(** [log.Fatalf]: write the line, then [os.Exit(1)]. *)
Definition Fatalf {A} (line : string) : Proc A :=
  fun w => (Exited 1, mkWorld (orders w) (channel w)
                              (trace w ++ [EvLog line; EvExit 1])).

Definition Sleep (seconds : Z) : Proc unit := emit (EvSleep seconds).

(** ** The two backing services *)

(** What the store does with one [INSERT]: it either takes it (stamping
    the row with its clock) or refuses it (connection lost, a column
    constraint of the schema violated, ...). *)
Inductive insert_outcome : Type :=
| Accepted (now : Z)
| Rejected (err : error).

(** Modelled from the spec: the relational store reached through
    [db.QueryRow] is an external collaborator, not code of the
    repository.  Following the Persist contract (section 4.1) a failed
    insert produces no identifier and no row, and a successful one adds
    exactly one row with the status given in the statement; the
    identifier comes from the [SERIAL] sequence and the [PRIMARY KEY]
    refuses an identifier already in the table. *)
Definition insert_row (o : insert_outcome) (t : option Table)
                      (product_id : string) (quantity : Z) (status : string)
  : option Table * (error + Z) :=
  match o, t with
  | Rejected e, _ => (t, inl e)
  | Accepted _, None => (None, inl "pq: relation orders does not exist")
  | Accepted now, Some tb =>
      let id := serial tb in
      if existsb (fun r => row_id r =? id) (rows tb)
      then (Some (mkTable (rows tb) (id + 1)),
            inl "pq: duplicate key value violates unique constraint orders_pkey")
      else (Some (mkTable (rows tb ++ [mkRow id product_id quantity status now])
                          (id + 1)),
            inr id)
  end.

(** Modelled from the spec: [CREATE TABLE IF NOT EXISTS orders] on the
    external store; an existing table is left as it is. *)
Definition ensure_table (t : option Table) : option Table :=
  match t with
  | Some tb => Some tb
  | None => Some (mkTable [] 1)
  end.

(** What the two services answer during one request. *)
Record Backend : Type := mkBackend {
  insert_res  : insert_outcome;
  publish_err : option error
}.

(** [db.QueryRow("INSERT INTO orders (product_id, quantity, status)
    VALUES ($1, $2, 'pending') RETURNING id", ...).Scan(&orderID)] *)
Definition QueryRow_insert (be : Backend) (product_id : string) (quantity : Z)
  : Proc (error + Z) :=
  fun w =>
    let (t, res) := insert_row (insert_res be) (orders w) product_id quantity "pending" in
    (Done res, mkWorld t (channel w) (trace w ++ [EvInsert product_id quantity res])).

(** Modelled from the spec: [rdb.Publish(ctx, chan, msg).Err()] on the
    external broker; a failed publish delivers nothing (section 4.2). *)
Definition Publish (be : Backend) (chan : string) (msg : gomap)
  : Proc (option error) :=
  fun w =>
    let delivered := match publish_err be with
                     | None => (channel w ++ [(chan, msg)])%list
                     | Some _ => channel w
                     end in
    (Done (publish_err be),
     mkWorld (orders w) delivered (trace w ++ [EvPublish chan msg (publish_err be)])).

(** ** net/http *)

Definition MethodPost : string := "POST".
Definition StatusOK : Z := 200.
Definition StatusBadRequest : Z := 400.
Definition StatusMethodNotAllowed : Z := 405.
Definition StatusInternalServerError : Z := 500.

Definition newline : string := String (ascii_of_nat 10) EmptyString.

(** [http.Error(w, msg, code)] *)
Definition http_Error (msg : string) (code : Z) : Response :=
  mkResponse code "text/plain; charset=utf-8" (Text (msg ++ newline)).

(** ** buyHandler *)

Definition buyHandler (be : Backend) (r : Request) : Proc Response :=
  if negb (String.eqb (Method r) MethodPost) then
    ret (http_Error "Method not allowed" StatusMethodNotAllowed)
  else
    match Decode (Body r) with
    | inl _ => ret (http_Error "Invalid request body" StatusBadRequest)
    | inr req =>
        let safeProductID := SanitizeInput (ProductID req) in
        (* insert into DB *)
        res <- QueryRow_insert be safeProductID (Quantity req) ;;
        match res with
        | inl err =>
            Println ("DB Insert Error: " ++ err) ;;
            ret (http_Error "Database error" StatusInternalServerError)
        | inr orderID =>
            (* Publish to Redis *)
            let orderMsg := [ ("order_id", IInt orderID);
                              ("product_id", IString safeProductID);
                              ("quantity", IInt (Quantity req)) ] in
            err <- Publish be "orders" orderMsg ;;
            match err with
            | Some e => Println ("Redis Publish Error: " ++ e)
            | None => ret tt
            end ;;
            Println ("Processed order #" ++ fmt_d orderID
                     ++ " for ProductID: " ++ safeProductID) ;;
            ret (mkResponse StatusOK "application/json"
                   (JSON [ ("order_id", IInt orderID);
                           ("product_id", IString safeProductID);
                           ("status", IString "Order processed") ]))
        end
    end.

(** ** Start-up *)

(** What the environment answers during start-up. *)
Record Boot : Type := mkBoot {
  PORT           : string;                 (* os.Getenv("PORT") *)
  open_err       : nat -> option error;    (* sql.Open at the i-th attempt *)
  ping_err       : nat -> option error;    (* db.Ping at the i-th attempt *)
  create_err     : option error;           (* db.Exec(createTableQuery) *)
  redis_ping_err : option error;           (* rdb.Ping(ctx) *)
  listen_err     : option error            (* http.ListenAndServe *)
}.

Definition sql_Open (b : Boot) (i : nat) : Proc (option error) :=
  emit (EvOpen i (open_err b i)) ;; ret (open_err b i).

Definition db_Ping (b : Boot) (i : nat) : Proc (option error) :=
  emit (EvDBPing i (ping_err b i)) ;; ret (ping_err b i).

Definition db_Exec_create (b : Boot) : Proc (option error) :=
  fun w =>
    let t := match create_err b with
             | None => ensure_table (orders w)
             | Some _ => orders w
             end in
    (Done (create_err b),
     mkWorld t (channel w) (trace w ++ [EvCreateTable (create_err b)])).

Definition redis_Ping (b : Boot) : Proc (option error) :=
  emit (EvRedisPing (redis_ping_err b)) ;; ret (redis_ping_err b).

(** [for i := 0; i < 10; i++ { ... }] of [initDB], with [n] iterations
    left; returns the value of [err] when the loop is left. *)
Fixpoint connect_loop (b : Boot) (n i : nat) (err : option error)
  : Proc (option error) :=
  match n with
  | O => ret err
  | S n' =>
      err <- sql_Open b i ;;
      err <- match err with
             | None => db_Ping b i
             | Some e => ret (Some e)
             end ;;
      match err with
      | None => Println "Connected to Database" ;; ret None   (* break *)
      | Some e =>
          Println ("Failed to connect to DB, retrying... (" ++ e ++ ")") ;;
          Sleep 2 ;;
          connect_loop b n' (S i) (Some e)
      end
  end.

Definition initDB (b : Boot) : Proc unit :=
  (* Retry loop for DB connection *)
  err <- connect_loop b 10 0 None ;;
  match err with
  | Some e => Fatalf ("Could not connect to database: " ++ e)
  | None => ret tt
  end ;;
  err <- db_Exec_create b ;;
  match err with
  | Some e => Fatalf ("Failed to create table: " ++ e)
  | None => ret tt
  end.

Definition initRedis (b : Boot) : Proc unit :=
  err <- redis_Ping b ;;
  match err with
  | Some e => Fatalf ("Could not connect to Redis: " ++ e)
  | None => ret tt
  end ;;
  Println "Connected to Redis".

(** [http.ListenAndServe]: returns only with an error; without one the
    listener is up and the process serves requests from here on. *)
Definition ListenAndServe (b : Boot) (addr : string) : Proc (option error) :=
  emit (EvListen addr (listen_err b)) ;; ret (listen_err b).

Definition main (b : Boot) : Proc unit :=
  let port := if String.eqb (PORT b) "" then "8080" else PORT b in
  initDB b ;;
  initRedis b ;;
  Println ("Store API (Secure) starting on port " ++ port ++ "...") ;;
  err <- ListenAndServe b (":" ++ port) ;;
  match err with
  | Some e => Fatalf ("Failed to start server: " ++ e)
  | None => ret tt
  end.

(** ** The order processor

    The worker of [order-processor/main.go]: a start line, then a loop
    without exit that logs and sleeps 10 seconds.  [loop n] is the first
    [n] iterations of [for { ... }]. *)

Module OrderProcessor.

Fixpoint loop (n : nat) : Proc unit :=
  match n with
  | O => ret tt
  | S n' =>
      Println "Checking for new orders..." ;;
      (* Simulate processing work *)
      Sleep 10 ;;
      loop n'
  end.

Definition main (n : nat) : Proc unit :=
  Println "Order Processor started..." ;;
  loop n.

(** The events of one iteration. *)
Definition iteration : list Event :=
  [EvLog "Checking for new orders..."; EvSleep 10].

End OrderProcessor.

(** ** Observations used in the statements *)

(** The rows of the table; a missing table has none. *)
Definition rows_of (t : option Table) : list Row :=
  match t with
  | Some tb => rows tb
  | None => []
  end.

(** The events a run has added to the trace. *)
Definition new_events (w w' : World) : list Event :=
  skipn (List.length (trace w)) (trace w').

Definition is_open (e : Event) : bool :=
  match e with EvOpen _ _ => true | _ => false end.
Definition is_redis_ping (e : Event) : bool :=
  match e with EvRedisPing _ => true | _ => false end.
Definition is_listen (e : Event) : bool :=
  match e with EvListen _ _ => true | _ => false end.
Definition is_publish (e : Event) : bool :=
  match e with EvPublish _ _ _ => true | _ => false end.

Definition count (p : Event -> bool) (t : list Event) : nat :=
  List.length (filter p t).

(** The combined result of open-then-ping at attempt [i]. *)
Definition attempt_err (b : Boot) (i : nat) : option error :=
  match open_err b i with
  | Some e => Some e
  | None => ping_err b i
  end.

(** The calls of attempt [i]: the ping is made only when the open worked. *)
Definition attempt_events (b : Boot) (i : nat) : list Event :=
  match open_err b i with
  | Some e => [EvOpen i (Some e)]
  | None => [EvOpen i None; EvDBPing i (ping_err b i)]
  end.

(** A failed attempt: the calls, the log line, and the 2-second wait. *)
Definition failed_attempt (b : Boot) (i : nat) : list Event :=
  (attempt_events b i
   ++ [EvLog ("Failed to connect to DB, retrying... ("
              ++ match attempt_err b i with Some e => e | None => "" end ++ ")");
       EvSleep 2])%list.

(** Attempt [k] is the first one to succeed. *)
Definition first_success (b : Boot) (k : nat) : Prop :=
  attempt_err b k = None /\ forall j, (j < k)%nat -> attempt_err b j <> None.

(** None of the ten attempts succeeds. *)
Definition never_connects (b : Boot) : Prop :=
  forall j, (j < 10)%nat -> attempt_err b j <> None.

(** The connection phase that succeeds at attempt [k]: [k] failed
    attempts, each followed by its wait, then the successful one. *)
Definition connect_events (b : Boot) (k : nat) : list Event :=
  (flat_map (failed_attempt b) (seq 0 k)
   ++ attempt_events b k ++ [EvLog "Connected to Database"])%list.

(** The port [main] listens on. *)
Definition port_of (b : Boot) : string :=
  if String.eqb (PORT b) "" then "8080" else PORT b.

(** What follows a successful connection phase, up to the listener or
    the first fatal error. *)
Definition after_connect (b : Boot) : list Event :=
  match create_err b with
  | Some e => [EvCreateTable (Some e); EvLog ("Failed to create table: " ++ e);
               EvExit 1]
  | None =>
      EvCreateTable None ::
      match redis_ping_err b with
      | Some e => [EvRedisPing (Some e);
                   EvLog ("Could not connect to Redis: " ++ e); EvExit 1]
      | None =>
          [EvRedisPing None; EvLog "Connected to Redis";
           EvLog ("Store API (Secure) starting on port " ++ port_of b ++ "...");
           EvListen (":" ++ port_of b) (listen_err b)]
          ++ match listen_err b with
             | Some e => [EvLog ("Failed to start server: " ++ e); EvExit 1]
             | None => []
             end
      end
  end%list.

(** Start-up gets through: the table is ensured, the broker answers, the
    listener comes up. *)
Definition boot_ok (b : Boot) : bool :=
  match create_err b, redis_ping_err b, listen_err b with
  | None, None, None => true
  | _, _, _ => false
  end.

(** A JSON value has no member that is stored into field [f]. *)
Definition omits (f : field) (v : Json.value) : bool :=
  match v with
  | Json.Object ms => negb (key_present f ms)
  | _ => true
  end.

(** The message and the body the handler builds for order [id]. *)
Definition order_msg (id : Z) (product_id : string) (quantity : Z) : gomap :=
  [ ("order_id", IInt id); ("product_id", IString product_id);
    ("quantity", IInt quantity) ].

Definition ok_body (id : Z) (product_id : string) : gomap :=
  [ ("order_id", IInt id); ("product_id", IString product_id);
    ("status", IString "Order processed") ].

(** The quantity of a decoded request fits Go's [int]. *)
Definition in_int_range (req : OrderRequest) : Prop :=
  min_int <= Quantity req <= max_int.

(** ** Further observations *)

(** How many bytes of [s] are on the deny list. *)
Fixpoint count_denied (s : string) : nat :=
  match s with
  | EmptyString => O
  | String c t => ((if denied c then 1 else 0) + count_denied t)%nat
  end.

(** How often the byte [c] occurs in [s]. *)
Fixpoint count_char (c : ascii) (s : string) : nat :=
  match s with
  | EmptyString => O
  | String d t => ((if Ascii.eqb d c then 1 else 0) + count_char c t)%nat
  end.

(** A member the decoder can store: an unknown key, [null], a string for
    [product_id], an integer literal in [int] range for [quantity]. *)
Definition member_ok (m : string * Json.value) : bool :=
  match field_of_key (fst m) with
  | None => true
  | Some FProductID =>
      match snd m with
      | Json.Null | Json.Str _ => true
      | _ => false
      end
  | Some FQuantity =>
      match snd m with
      | Json.Null => true
      | Json.Number (Json.Integer z) => ((min_int <=? z) && (z <=? max_int))%bool
      | _ => false
      end
  end.

(** A member whose key names one of the two fields. *)
Definition known_member (m : string * Json.value) : bool :=
  match field_of_key (fst m) with
  | Some _ => true
  | None => false
  end.

Definition is_insert (e : Event) : bool :=
  match e with EvInsert _ _ _ => true | _ => false end.

(** The identifiers in the table are pairwise distinct and all below the
    next value of the sequence. *)
Definition table_wf (tb : Table) : Prop :=
  NoDup (map row_id (rows tb))
  /\ forall row, In row (rows tb) -> row_id row < serial tb.

Definition world_wf (w : World) : Prop :=
  match orders w with
  | Some tb => table_wf tb
  | None => True
  end.

(** Every message on the channel announces a stored row. *)
Definition channel_backed (w : World) : Prop :=
  forall chan msg, In (chan, msg) (channel w) ->
    chan = "orders"
    /\ exists row, In row (rows_of (orders w))
                   /\ msg = order_msg (row_id row) (row_product_id row)
                                      (row_quantity row).

(** The next value of the [SERIAL] sequence (0 without a table). *)
Definition next_id (w : World) : Z :=
  match orders w with
  | Some tb => serial tb
  | None => 0
  end.

(** The [order_id] of a response body, if it has one. *)
Definition response_order_id (resp : Response) : option Z :=
  match Payload resp with
  | JSON m =>
      match find (fun kv => String.eqb (fst kv) "order_id") m with
      | Some (_, IInt id) => Some id
      | _ => None
      end
  | Text _ => None
  end.

Fixpoint order_ids (resps : list Response) : list Z :=
  match resps with
  | [] => []
  | resp :: rest =>
      match response_order_id resp with
      | Some id => id :: order_ids rest
      | None => order_ids rest
      end
  end.

(** Requests handled one after the other, each with the answers the two
    services give during it. *)
Fixpoint serve (reqs : list (Backend * Request)) (w : World)
  : list Response * World :=
  match reqs with
  | [] => ([], w)
  | (be, r) :: rest =>
      match buyHandler be r w with
      | (Done resp, w') =>
          let (resps, w'') := serve rest w' in (resp :: resps, w'')
      | (Exited _, w') => ([], w')
      end
  end.

(** A list of integers that starts at [lo] or above and strictly grows. *)
Fixpoint ascending (lo : Z) (l : list Z) : Prop :=
  match l with
  | [] => True
  | x :: t => lo <= x /\ ascending (x + 1) t
  end.

(** The seconds a trace spends in [time.Sleep]. *)
Fixpoint slept (t : list Event) : Z :=
  match t with
  | [] => 0
  | EvSleep d :: t' => d + slept t'
  | _ :: t' => slept t'
  end.

(** A body the decoder takes: [null], or an object whose members can all
    be stored (every [product_id] a string or [null], every [quantity] an
    integer literal in [int] range or [null]). *)
Definition well_typed_body (v : Json.value) : bool :=
  match v with
  | Json.Null => true
  | Json.Object ms => forallb member_ok ms
  | _ => false
  end.

(** ** Sample inputs *)

(** A store with the empty table [initDB] creates, and a silent broker. *)
Definition fresh_world : World := mkWorld (Some (mkTable [] 1)) [] [].

Definition both_up : Backend := mkBackend (Accepted 1700000000) None.
Definition broker_down : Backend :=
  mkBackend (Accepted 1700000000) (Some "dial tcp: connection refused").
Definition store_down : Backend :=
  mkBackend (Rejected "driver: bad connection") None.

(** POST with body [{"product_id": "<script>", "quantity": 2}] *)
Definition script_request : Request :=
  mkRequest "POST"
    (Some (Json.Object [ ("product_id", Json.Str "<script>");
                         ("quantity", Json.Number (Json.Integer 2)) ])).

(** POST with body [{"product_id": "book", "quantity": -5}] *)
Definition negative_request : Request :=
  mkRequest "POST"
    (Some (Json.Object [ ("product_id", Json.Str "book");
                         ("quantity", Json.Number (Json.Integer (-5))) ])).

(** POST with body [{"quantity": "two"}] *)
Definition ill_typed_request : Request :=
  mkRequest "POST" (Some (Json.Object [ ("quantity", Json.Str "two") ])).

(** POST with body [{}] *)
Definition empty_object_request : Request :=
  mkRequest "POST" (Some (Json.Object [])).

(** GET without a body, and POST with a body that is not JSON. *)
Definition get_request : Request := mkRequest "GET" None.
Definition garbled_request : Request := mkRequest "POST" None.

(** A store that accepts its third connection attempt. *)
Definition late_store : Boot :=
  mkBoot "" (fun _ => None)
         (fun i => if Nat.ltb i 2 then Some "connection refused" else None)
         None None None.

(** A store that never comes up. *)
Definition dead_store : Boot :=
  mkBoot "" (fun _ => None) (fun _ => Some "connection refused") None None None.

(** The state before start-up: no table, nothing published. *)
Definition cold_world : World := mkWorld None [] [].

(** The answer and the world after [script_request] on a fresh store. *)
Definition script_response : Response :=
  mkResponse 200 "application/json" (JSON (ok_body 1 "script")).
Definition script_world : World :=
  snd (buyHandler both_up script_request fresh_world).

(** POST with body [{"product_id": "book"}] *)
Definition product_only_request : Request :=
  mkRequest "POST" (Some (Json.Object [ ("product_id", Json.Str "book") ])).

(** The table after one start-up that had to create it. *)
Definition created_table : Table := mkTable [] 1.

(** * Properties *)

(** ** SanitizeInput *)

Section Sanitize.

Lemma filter_string_ext (p q : ascii -> bool) (s : string) :
  (forall c, p c = q c) -> filter_string p s = filter_string q s.
Proof.
  intros E. induction s as [|c t IH]; simpl; [reflexivity|].
  rewrite E, IH. reflexivity.
Qed.

Lemma filter_string_twice (p q : ascii -> bool) (s : string) :
  filter_string q (filter_string p s)
  = filter_string (fun c => (p c && q c)%bool) s.
Proof.
  induction s as [|c t IH]; simpl; [reflexivity|].
  destruct (p c); simpl; [|exact IH].
  destruct (q c); simpl; rewrite IH; reflexivity.
Qed.

Lemma occurs_filter_string (p : ascii -> bool) (c : ascii) (s : string) :
  p c = false -> occurs c (filter_string p s) = false.
Proof.
  intros Hc. induction s as [|d t IH]; simpl; [reflexivity|].
  destruct (p d) eqn:Hd; simpl; [|exact IH].
  rewrite IH, orb_false_r.
  apply Ascii.eqb_neq. intros ->. congruence.
Qed.

(** Replacing a one-byte pattern by the empty string drops exactly the
    occurrences of that byte. *)
Lemma ReplaceAll_byte (c : ascii) (s : string) :
  Strings.ReplaceAll s (String c "") ""
  = filter_string (fun d => negb (Ascii.eqb d c)) s.
Proof.
  unfold Strings.ReplaceAll. simpl String.eqb.
  induction s as [|d t IH]; [reflexivity|].
  cbn [Strings.replace_from prefix String.length Nat.sub filter_string].
  destruct (ascii_dec c d) as [->|Hne].
  - rewrite Ascii.eqb_refl. simpl. destruct t; exact IH.
  - assert (Ascii.eqb d c = false) as -> by (apply Ascii.eqb_neq; congruence).
    simpl. f_equal. exact IH.
Qed.

Lemma SanitizeInput_strip (s : string) : SanitizeInput s = strip_denylist s.
Proof.
  unfold SanitizeInput, strip_denylist.
  rewrite !ReplaceAll_byte, !filter_string_twice.
  apply filter_string_ext. intros c. unfold denied.
  rewrite !negb_orb, !andb_assoc. reflexivity.
Qed.

End Sanitize.

(** C4: for every input, [SanitizeInput] returns the input with every
    occurrence of [<], [>], ['] and [;] removed and all other characters
    kept in their original order; the input ["<script>"] becomes
    ["script"]. *)
Theorem SanitizeInput_removes_exactly_the_denylist :
  (forall input, SanitizeInput input = strip_denylist input)
  /\ SanitizeInput "<script>" = "script".
Proof.
  split; [exact SanitizeInput_strip | reflexivity].
Qed.

(** C8: [SanitizeInput] is idempotent, and its output contains none of
    the four denied characters. *)
Theorem SanitizeInput_idempotent_and_clean (s : string) :
  SanitizeInput (SanitizeInput s) = SanitizeInput s
  /\ occurs "<" (SanitizeInput s) = false
  /\ occurs ">" (SanitizeInput s) = false
  /\ occurs "'" (SanitizeInput s) = false
  /\ occurs ";" (SanitizeInput s) = false.
Proof.
  rewrite !SanitizeInput_strip. unfold strip_denylist.
  split.
  - rewrite filter_string_twice. apply filter_string_ext.
    intros c. destruct (denied c); reflexivity.
  - repeat split; apply occurs_filter_string; reflexivity.
Qed.

(** ** The store *)

Section StoreFacts.

Lemma insert_row_inr o t pid qty st t' id :
  insert_row o t pid qty st = (t', inr id) ->
  exists now tb,
    o = Accepted now /\ t = Some tb /\ id = serial tb
    /\ existsb (fun r => row_id r =? id) (rows tb) = false
    /\ t' = Some (mkTable (rows tb ++ [mkRow id pid qty st now]) (id + 1)).
Proof.
  unfold insert_row. destruct o as [now|e]; [|discriminate].
  destruct t as [tb|]; [|discriminate].
  destruct (existsb _ (rows tb)) eqn:Hex; [discriminate|].
  intros H. injection H as <- <-. exists now, tb. repeat split. exact Hex.
Qed.

Lemma insert_row_inl o t pid qty st t' e :
  insert_row o t pid qty st = (t', inl e) -> rows_of t' = rows_of t.
Proof.
  unfold insert_row. destruct o as [now|e0].
  - destruct t as [tb|].
    + destruct (existsb _ (rows tb)); [|discriminate].
      intros H. injection H as <- _. reflexivity.
    + intros H. injection H as <- _. reflexivity.
  - intros H. injection H as <- _. reflexivity.
Qed.

Lemma filter_none {A} (p : A -> bool) (l : list A) :
  existsb p l = false -> filter p l = [].
Proof.
  induction l as [|a l IH]; simpl; [reflexivity|].
  destruct (p a); simpl; [discriminate|exact IH].
Qed.

Lemma new_events_app w t' ch evs :
  new_events w (mkWorld t' ch (trace w ++ evs)) = evs.
Proof.
  unfold new_events. simpl.
  rewrite skipn_app, skipn_all, Nat.sub_diag. reflexivity.
Qed.

End StoreFacts.

(** ** buyHandler *)

Section Handler.

Variable be : Backend.
Variable r : Request.
Variable w : World.

Local Arguments SanitizeInput : simpl never.
Local Arguments fmt_d : simpl never.
Local Arguments String.append : simpl never.

(** The run of an accepted request whose insert is taken. *)
Lemma buyHandler_persisted req t' id :
  Method r = MethodPost ->
  Decode (Body r) = inr req ->
  insert_row (insert_res be) (orders w)
             (SanitizeInput (ProductID req)) (Quantity req) "pending"
    = (t', inr id) ->
  let pid := SanitizeInput (ProductID req) in
  let msg := order_msg id pid (Quantity req) in
  buyHandler be r w =
    (Done (mkResponse StatusOK "application/json" (JSON (ok_body id pid))),
     mkWorld t'
       (match publish_err be with
        | None => channel w ++ [("orders", msg)]
        | Some _ => channel w
        end)
       (trace w
        ++ [EvInsert pid (Quantity req) (inr id);
            EvPublish "orders" msg (publish_err be)]
        ++ match publish_err be with
           | None => []
           | Some e => [EvLog ("Redis Publish Error: " ++ e)]
           end
        ++ [EvLog ("Processed order #" ++ fmt_d id
                   ++ " for ProductID: " ++ pid)])).
Proof.
  intros HM HD HI. unfold buyHandler.
  rewrite HM, String.eqb_refl, HD. change (negb true) with false.
  cbv beta iota zeta.
  unfold bind at 1. unfold QueryRow_insert. rewrite HI.
  unfold bind, Publish, Println, emit, ret. simpl.
  destruct (publish_err be); simpl; rewrite <- !app_assoc; reflexivity.
Qed.

(** The run of an accepted request whose insert is refused. *)
Lemma buyHandler_refused req t' e :
  Method r = MethodPost ->
  Decode (Body r) = inr req ->
  insert_row (insert_res be) (orders w)
             (SanitizeInput (ProductID req)) (Quantity req) "pending"
    = (t', inl e) ->
  buyHandler be r w =
    (Done (http_Error "Database error" StatusInternalServerError),
     mkWorld t' (channel w)
       (trace w
        ++ [EvInsert (SanitizeInput (ProductID req)) (Quantity req) (inl e);
            EvLog ("DB Insert Error: " ++ e)])).
Proof.
  intros HM HD HI. unfold buyHandler.
  rewrite HM, String.eqb_refl, HD. change (negb true) with false.
  cbv beta iota zeta.
  unfold bind at 1. unfold QueryRow_insert. rewrite HI.
  unfold bind, Println, emit, ret. simpl.
  rewrite <- !app_assoc; reflexivity.
Qed.

Lemma buyHandler_not_post :
  Method r <> MethodPost ->
  buyHandler be r w =
    (Done (http_Error "Method not allowed" StatusMethodNotAllowed), w).
Proof.
  intros HM. unfold buyHandler.
  apply String.eqb_neq in HM. rewrite HM. reflexivity.
Qed.

Lemma buyHandler_bad_body e :
  Method r = MethodPost ->
  Decode (Body r) = inl e ->
  buyHandler be r w =
    (Done (http_Error "Invalid request body" StatusBadRequest), w).
Proof.
  intros HM HD. unfold buyHandler.
  rewrite HM, String.eqb_refl, HD. reflexivity.
Qed.

End Handler.

(** ** Decoding *)

Section Decoding.

Lemma decode_member_range req m req' :
  in_int_range req -> decode_member req m = inr req' -> in_int_range req'.
Proof.
  unfold decode_member, in_int_range. intros Hr.
  destruct (field_of_key (fst m)) as [[|]|].
  - destruct (snd m); try discriminate; intros H; injection H as <-; exact Hr.
  - destruct (snd m) as [| |[z|]| | |]; try discriminate.
    + intros H; injection H as <-; exact Hr.
    + destruct ((min_int <=? z) && (z <=? max_int))%bool eqn:Hz; [|discriminate].
      intros H; injection H as <-. simpl.
      apply andb_prop in Hz. destruct Hz as [H1 H2].
      apply Z.leb_le in H1, H2. lia.
  - intros H; injection H as <-; exact Hr.
Qed.

Lemma decode_members_range ms : forall req req',
  in_int_range req -> decode_members req ms = inr req' -> in_int_range req'.
Proof.
  induction ms as [|m ms IH]; simpl; intros req req' Hr H.
  - injection H as <-. exact Hr.
  - destruct (decode_member req m) as [e|req1] eqn:Hm; [discriminate|].
    eapply IH; [|exact H]. eapply decode_member_range; eassumption.
Qed.

Lemma Decode_range body req :
  Decode body = inr req -> in_int_range req.
Proof.
  assert (in_int_range (mkOrderRequest "" 0)) as H0
    by (unfold in_int_range, min_int, max_int; simpl; lia).
  unfold Decode. destruct body as [[| | | | |ms]|]; try discriminate.
  - intros H; injection H as <-. exact H0.
  - apply decode_members_range. exact H0.
Qed.

(** A field no member is stored into keeps the value it had. *)
Lemma decode_members_keeps_ProductID ms : forall req req',
  key_present FProductID ms = false ->
  decode_members req ms = inr req' -> ProductID req' = ProductID req.
Proof.
  induction ms as [|m ms IH]; simpl; intros req req' Hk H.
  - injection H as <-. reflexivity.
  - apply orb_false_elim in Hk. destruct Hk as [Hm Hk].
    destruct (decode_member req m) as [e|req1] eqn:Hd; [discriminate|].
    rewrite (IH _ _ Hk H). unfold decode_member in Hd.
    destruct (field_of_key (fst m)) as [[|]|]; [discriminate| |].
    + destruct (snd m) as [| |[z|]| | |]; try discriminate.
      * injection Hd as <-. reflexivity.
      * destruct ((min_int <=? z) && (z <=? max_int))%bool; [|discriminate].
        injection Hd as <-. reflexivity.
    + injection Hd as <-. reflexivity.
Qed.

Lemma decode_members_keeps_Quantity ms : forall req req',
  key_present FQuantity ms = false ->
  decode_members req ms = inr req' -> Quantity req' = Quantity req.
Proof.
  induction ms as [|m ms IH]; simpl; intros req req' Hk H.
  - injection H as <-. reflexivity.
  - apply orb_false_elim in Hk. destruct Hk as [Hm Hk].
    destruct (decode_member req m) as [e|req1] eqn:Hd; [discriminate|].
    rewrite (IH _ _ Hk H). unfold decode_member in Hd.
    destruct (field_of_key (fst m)) as [[|]|]; [|discriminate|].
    + destruct (snd m); try discriminate; injection Hd as <-; reflexivity.
    + injection Hd as <-. reflexivity.
Qed.

Lemma Decode_omitted v req :
  Decode (Some v) = inr req ->
  (omits FProductID v = true -> ProductID req = "")
  /\ (omits FQuantity v = true -> Quantity req = 0).
Proof.
  unfold Decode, omits. destruct v as [| | | | |ms]; try discriminate.
  - intros H; injection H as <-. split; reflexivity.
  - intros H. split; intros Hk; apply negb_true_iff in Hk.
    + apply (decode_members_keeps_ProductID _ _ _ Hk H).
    + apply (decode_members_keeps_Quantity _ _ _ Hk H).
Qed.

End Decoding.

(** ** The request path *)

(** C1: when the body decodes and the insert succeeds, a failing publish
    is only logged: the handler still answers 200 with the assigned
    order identifier, exactly one row has been created, nothing reaches
    the channel, and the response is the one of the publish-success
    case. *)
Theorem publish_failure_is_only_logged be r w req t' id e :
  Method r = MethodPost ->
  Decode (Body r) = inr req ->
  insert_row (insert_res be) (orders w)
             (SanitizeInput (ProductID req)) (Quantity req) "pending"
    = (t', inr id) ->
  publish_err be = Some e ->
  let pid := SanitizeInput (ProductID req) in
  exists resp w' row,
    buyHandler be r w = (Done resp, w')
    /\ resp = mkResponse 200 "application/json" (JSON (ok_body id pid))
    /\ rows_of (orders w') = (rows_of (orders w) ++ [row])%list
    /\ row_id row = id
    /\ channel w' = channel w
    /\ new_events w w'
       = [ EvInsert pid (Quantity req) (inr id);
           EvPublish "orders" (order_msg id pid (Quantity req)) (Some e);
           EvLog ("Redis Publish Error: " ++ e);
           EvLog ("Processed order #" ++ fmt_d id ++ " for ProductID: " ++ pid) ]
    /\ fst (buyHandler (mkBackend (insert_res be) None) r w) = Done resp.
Proof.
  intros HM HD HI HP pid.
  destruct (insert_row_inr _ _ _ _ _ _ _ HI) as (now & tb & Ho & Ht & Hid & Hex & Ht').
  pose proof (buyHandler_persisted be r w req t' id HM HD HI) as Hrun.
  pose proof (buyHandler_persisted (mkBackend (insert_res be) None) r w req t' id
                HM HD HI) as Hup.
  cbv zeta in Hrun, Hup. rewrite HP in Hrun.
  eexists. eexists. exists (mkRow id pid (Quantity req) "pending" now).
  split; [exact Hrun|].
  split; [reflexivity|].
  split; [subst t'; rewrite Ht; reflexivity|].
  split; [reflexivity|].
  split; [reflexivity|].
  split; [apply new_events_app|].
  rewrite Hup. reflexivity.
Qed.

Lemma publish_failure_is_only_logged_witness :
  exists resp w' row,
    buyHandler broker_down script_request fresh_world = (Done resp, w')
    /\ resp = mkResponse 200 "application/json" (JSON (ok_body 1 "script"))
    /\ rows_of (orders w') = (rows_of (orders fresh_world) ++ [row])%list
    /\ row_id row = 1
    /\ channel w' = channel fresh_world
    /\ new_events fresh_world w'
       = [ EvInsert "script" 2 (inr 1);
           EvPublish "orders" (order_msg 1 "script" 2)
                     (Some "dial tcp: connection refused");
           EvLog "Redis Publish Error: dial tcp: connection refused";
           EvLog "Processed order #1 for ProductID: script" ]
    /\ fst (buyHandler (mkBackend (insert_res broker_down) None)
                       script_request fresh_world) = Done resp.
Proof.
  exact (publish_failure_is_only_logged broker_down script_request fresh_world
           (mkOrderRequest "<script>" 2)
           (Some (mkTable [mkRow 1 "script" 2 "pending" 1700000000] 2)) 1
           "dial tcp: connection refused"
           eq_refl eq_refl eq_refl eq_refl).
Defined.

(** C2: when the body decodes and the insert fails, the handler answers
    500, produces no order identifier, creates no row, and never reaches
    the publish step. *)
Theorem store_failure_aborts_the_request be r w req t' e :
  Method r = MethodPost ->
  Decode (Body r) = inr req ->
  insert_row (insert_res be) (orders w)
             (SanitizeInput (ProductID req)) (Quantity req) "pending"
    = (t', inl e) ->
  exists resp w',
    buyHandler be r w = (Done resp, w')
    /\ resp = mkResponse 500 "text/plain; charset=utf-8"
                         (Text ("Database error" ++ newline))
    /\ rows_of (orders w') = rows_of (orders w)
    /\ channel w' = channel w
    /\ new_events w w'
       = [ EvInsert (SanitizeInput (ProductID req)) (Quantity req) (inl e);
           EvLog ("DB Insert Error: " ++ e) ]
    /\ count is_publish (new_events w w') = 0%nat.
Proof.
  intros HM HD HI.
  pose proof (buyHandler_refused be r w req t' e HM HD HI) as Hrun.
  eexists. eexists.
  split; [exact Hrun|].
  split; [reflexivity|].
  split; [exact (insert_row_inl _ _ _ _ _ _ _ HI)|].
  split; [reflexivity|].
  rewrite new_events_app. split; reflexivity.
Qed.

Lemma store_failure_aborts_the_request_witness :
  exists resp w',
    buyHandler store_down script_request fresh_world = (Done resp, w')
    /\ resp = mkResponse 500 "text/plain; charset=utf-8"
                         (Text ("Database error" ++ newline))
    /\ rows_of (orders w') = rows_of (orders fresh_world)
    /\ channel w' = channel fresh_world
    /\ new_events fresh_world w'
       = [ EvInsert "script" 2 (inl "driver: bad connection");
           EvLog "DB Insert Error: driver: bad connection" ]
    /\ count is_publish (new_events fresh_world w') = 0%nat.
Proof.
  exact (store_failure_aborts_the_request store_down script_request fresh_world
           (mkOrderRequest "<script>" 2) (orders fresh_world)
           "driver: bad connection" eq_refl eq_refl eq_refl).
Defined.

(** Every run of the handler is one of four: wrong method, undecodable
    body, refused insert, or persisted order. *)
Lemma buyHandler_cases be r w :
  (Method r <> MethodPost
   /\ buyHandler be r w
      = (Done (http_Error "Method not allowed" StatusMethodNotAllowed), w))
  \/ (Method r = MethodPost /\ exists e,
        Decode (Body r) = inl e
        /\ buyHandler be r w
           = (Done (http_Error "Invalid request body" StatusBadRequest), w))
  \/ (Method r = MethodPost /\ exists req t' e,
        Decode (Body r) = inr req
        /\ insert_row (insert_res be) (orders w)
                      (SanitizeInput (ProductID req)) (Quantity req) "pending"
           = (t', inl e)
        /\ buyHandler be r w
           = (Done (http_Error "Database error" StatusInternalServerError),
              mkWorld t' (channel w)
                (trace w
                 ++ [EvInsert (SanitizeInput (ProductID req)) (Quantity req) (inl e);
                     EvLog ("DB Insert Error: " ++ e)])))
  \/ (Method r = MethodPost /\ exists req tb now,
        let pid := SanitizeInput (ProductID req) in
        let id := serial tb in
        let msg := order_msg id pid (Quantity req) in
        Decode (Body r) = inr req
        /\ orders w = Some tb
        /\ existsb (fun row => row_id row =? id) (rows tb) = false
        /\ buyHandler be r w
           = (Done (mkResponse StatusOK "application/json" (JSON (ok_body id pid))),
              mkWorld
                (Some (mkTable (rows tb ++ [mkRow id pid (Quantity req) "pending" now])
                               (id + 1)))
                (match publish_err be with
                 | None => channel w ++ [("orders", msg)]
                 | Some _ => channel w
                 end)
                (trace w
                 ++ [EvInsert pid (Quantity req) (inr id);
                     EvPublish "orders" msg (publish_err be)]
                 ++ match publish_err be with
                    | None => []
                    | Some e => [EvLog ("Redis Publish Error: " ++ e)]
                    end
                 ++ [EvLog ("Processed order #" ++ fmt_d id
                            ++ " for ProductID: " ++ pid)]))).
Proof.
  destruct (string_dec (Method r) MethodPost) as [HM|HM].
  2:{ left. split; [exact HM|]. apply buyHandler_not_post, HM. }
  right. destruct (Decode (Body r)) as [e|req] eqn:HD.
  { left. split; [exact HM|]. exists e. split; [reflexivity|].
    eapply buyHandler_bad_body; eassumption. }
  right.
  destruct (insert_row (insert_res be) (orders w)
              (SanitizeInput (ProductID req)) (Quantity req) "pending")
    as [t' [e|id]] eqn:HI.
  { left. split; [exact HM|]. exists req, t', e.
    split; [reflexivity|]. split; [exact HI|].
    apply buyHandler_refused; assumption. }
  right. split; [exact HM|].
  destruct (insert_row_inr _ _ _ _ _ _ _ HI) as (now & tb & Ho & Ht & Hid & Hex & Ht').
  exists req, tb, now. cbv zeta. subst id.
  split; [reflexivity|]. split; [exact Ht|]. split; [exact Hex|].
  rewrite <- Ht'. apply buyHandler_persisted; assumption.
Qed.

Lemma new_events_same w : new_events w w = [].
Proof. unfold new_events. apply skipn_all. Qed.

(** C7: a request whose method is not POST is answered 405, and a POST
    whose body does not decode is answered 400; in both cases no row is
    inserted and no notification is published. *)
Theorem client_errors_have_no_side_effects be r w :
  (Method r <> MethodPost ->
   exists resp w',
     buyHandler be r w = (Done resp, w')
     /\ StatusCode resp = 405
     /\ orders w' = orders w /\ channel w' = channel w
     /\ new_events w w' = [])
  /\ (Method r = MethodPost ->
      forall e, Decode (Body r) = inl e ->
      exists resp w',
        buyHandler be r w = (Done resp, w')
        /\ StatusCode resp = 400
        /\ orders w' = orders w /\ channel w' = channel w
        /\ new_events w w' = []).
Proof.
  split.
  - intros HM. eexists. exists w.
    split; [apply buyHandler_not_post, HM|].
    repeat split. apply new_events_same.
  - intros HM e HD. eexists. exists w.
    split; [eapply buyHandler_bad_body; eassumption|].
    repeat split. apply new_events_same.
Qed.

Lemma client_errors_have_no_side_effects_witness :
  (exists resp w',
     buyHandler both_up get_request fresh_world = (Done resp, w')
     /\ StatusCode resp = 405
     /\ orders w' = orders fresh_world /\ channel w' = channel fresh_world
     /\ new_events fresh_world w' = [])
  /\ (exists resp w',
        buyHandler both_up garbled_request fresh_world = (Done resp, w')
        /\ StatusCode resp = 400
        /\ orders w' = orders fresh_world /\ channel w' = channel fresh_world
        /\ new_events fresh_world w' = []).
Proof.
  split.
  - apply (proj1 (client_errors_have_no_side_effects both_up get_request fresh_world)).
    discriminate.
  - apply (proj2 (client_errors_have_no_side_effects both_up garbled_request fresh_world)
                 eq_refl _ eq_refl).
Defined.

(** A 200 answer is given on the persisted path only. *)
Lemma buyHandler_ok_inv be r w resp w' :
  buyHandler be r w = (Done resp, w') ->
  StatusCode resp = StatusOK ->
  exists req tb now,
    let pid := SanitizeInput (ProductID req) in
    let id := serial tb in
    Method r = MethodPost
    /\ Decode (Body r) = inr req
    /\ orders w = Some tb
    /\ existsb (fun row => row_id row =? id) (rows tb) = false
    /\ resp = mkResponse StatusOK "application/json" (JSON (ok_body id pid))
    /\ orders w'
       = Some (mkTable (rows tb ++ [mkRow id pid (Quantity req) "pending" now])
                       (id + 1)).
Proof.
  intros Hrun Hok.
  destruct (buyHandler_cases be r w)
    as [[_ H]|[[_ (e & _ & H)]|[[_ (req & t' & e & _ & _ & H)]
                               |[HM (req & tb & now & HD & Ht & Hex & H)]]]];
    rewrite H in Hrun; injection Hrun as <- <-; try discriminate Hok.
  exists req, tb, now. cbv zeta. repeat split; assumption.
Qed.

(** C3: a successful response is 200 with a JSON payload holding the
    status text, the sanitized product identifier and the order
    identifier, and exactly one stored row carries that identifier: its
    product identifier is the sanitized input, its quantity the submitted
    one, its status [pending]. *)
Theorem success_response_names_one_row be r w resp w' :
  buyHandler be r w = (Done resp, w') ->
  StatusCode resp = 200 ->
  exists req id now,
    let pid := SanitizeInput (ProductID req) in
    Method r = MethodPost
    /\ Decode (Body r) = inr req
    /\ ContentType resp = "application/json"
    /\ Payload resp = JSON [ ("order_id", IInt id);
                             ("product_id", IString pid);
                             ("status", IString "Order processed") ]
    /\ filter (fun row => row_id row =? id) (rows_of (orders w'))
       = [ mkRow id pid (Quantity req) "pending" now ].
Proof.
  intros Hrun Hok.
  destruct (buyHandler_ok_inv _ _ _ _ _ Hrun Hok)
    as (req & tb & now & HM & HD & Ht & Hex & -> & Hw').
  exists req, (serial tb), now. cbv zeta.
  repeat split; try assumption.
  rewrite Hw'. simpl rows_of.
  rewrite filter_app, (filter_none _ _ Hex). simpl.
  rewrite Z.eqb_refl. reflexivity.
Qed.

Lemma success_response_names_one_row_witness :
  exists req id now,
    let pid := SanitizeInput (ProductID req) in
    Method script_request = MethodPost
    /\ Decode (Body script_request) = inr req
    /\ ContentType (mkResponse 200 "application/json" (JSON (ok_body 1 "script")))
       = "application/json"
    /\ Payload (mkResponse 200 "application/json" (JSON (ok_body 1 "script")))
       = JSON [ ("order_id", IInt id);
                ("product_id", IString pid);
                ("status", IString "Order processed") ]
    /\ filter (fun row => row_id row =? id)
              (rows_of (Some (mkTable [mkRow 1 "script" 2 "pending" 1700000000] 2)))
       = [ mkRow id pid (Quantity req) "pending" now ].
Proof.
  exact (success_response_names_one_row both_up script_request fresh_world
           (mkResponse 200 "application/json" (JSON (ok_body 1 "script")))
           (mkWorld (Some (mkTable [mkRow 1 "script" 2 "pending" 1700000000] 2))
                    [("orders", order_msg 1 "script" 2)]
                    [EvInsert "script" 2 (inr 1);
                     EvPublish "orders" (order_msg 1 "script" 2) None;
                     EvLog "Processed order #1 for ProductID: script"])
           eq_refl eq_refl).
Defined.

(** C9 as stated fails: a request with quantity [-5] is accepted and its
    row is stored with that negative quantity. *)
Lemma negative_quantity_is_stored :
  ~ (forall be r w resp w' row,
       buyHandler be r w = (Done resp, w') ->
       StatusCode resp = 200 ->
       In row (rows_of (orders w')) ->
       ~ In row (rows_of (orders w)) ->
       0 <= row_quantity row).
Proof.
  intros H.
  specialize (H both_up negative_request fresh_world
                (mkResponse 200 "application/json" (JSON (ok_body 1 "book")))
                (mkWorld (Some (mkTable [mkRow 1 "book" (-5) "pending" 1700000000] 2))
                         [("orders", order_msg 1 "book" (-5))]
                         [EvInsert "book" (-5) (inr 1);
                          EvPublish "orders" (order_msg 1 "book" (-5)) None;
                          EvLog "Processed order #1 for ProductID: book"])
                (mkRow 1 "book" (-5) "pending" 1700000000)
                eq_refl eq_refl (or_introl eq_refl) (fun F => F)).
  simpl in H. lia.
Qed.

(** C9, amended: the row created for an accepted and persisted request
    stores the submitted quantity unchanged, whatever its sign; it is
    only known to lie in the range of Go's [int]. *)
Theorem stored_quantity_is_the_submitted_one be r w resp w' :
  buyHandler be r w = (Done resp, w') ->
  StatusCode resp = 200 ->
  exists req row,
    Decode (Body r) = inr req
    /\ rows_of (orders w') = (rows_of (orders w) ++ [row])%list
    /\ row_quantity row = Quantity req
    /\ min_int <= row_quantity row <= max_int.
Proof.
  intros Hrun Hok.
  destruct (buyHandler_ok_inv _ _ _ _ _ Hrun Hok)
    as (req & tb & now & HM & HD & Ht & Hex & -> & Hw').
  exists req. eexists.
  split; [exact HD|].
  split; [rewrite Hw', Ht; reflexivity|].
  split; [reflexivity|].
  exact (Decode_range _ _ HD).
Qed.

Lemma stored_quantity_is_the_submitted_one_witness :
  exists req row,
    Decode (Body negative_request) = inr req
    /\ rows_of (Some (mkTable [mkRow 1 "book" (-5) "pending" 1700000000] 2))
       = (rows_of (orders fresh_world) ++ [row])%list
    /\ row_quantity row = Quantity req
    /\ min_int <= row_quantity row <= max_int.
Proof.
  exact (stored_quantity_is_the_submitted_one both_up negative_request fresh_world
           (mkResponse 200 "application/json" (JSON (ok_body 1 "book")))
           (mkWorld (Some (mkTable [mkRow 1 "book" (-5) "pending" 1700000000] 2))
                    [("orders", order_msg 1 "book" (-5))]
                    [EvInsert "book" (-5) (inr 1);
                     EvPublish "orders" (order_msg 1 "book" (-5)) None;
                     EvLog "Processed order #1 for ProductID: book"])
           eq_refl eq_refl).
Defined.

(** Locate a publish event in a trace whose spine is known. *)
Ltac find_publish H pre :=
  destruct pre as [|? pre]; simpl in H;
  [ try discriminate H
  | first [ discriminate H
          | injection H as ? H; subst; find_publish H pre ] ].

(** C5: within one request a publish is made only after the insert has
    returned an identifier, and the message carries that identifier with
    the sanitized product identifier and the quantity of the stored row;
    whatever the run adds to the channel announces a stored row. *)
Theorem publish_follows_persist be r w o w' :
  buyHandler be r w = (o, w') ->
  (forall pre chan msg err post,
     new_events w w' = (pre ++ EvPublish chan msg err :: post)%list ->
     exists req id now,
       let pid := SanitizeInput (ProductID req) in
       Decode (Body r) = inr req
       /\ pre = [EvInsert pid (Quantity req) (inr id)]
       /\ chan = "orders"
       /\ msg = order_msg id pid (Quantity req)
       /\ In (mkRow id pid (Quantity req) "pending" now) (rows_of (orders w')))
  /\ (channel w' = channel w
      \/ exists req id now,
           let pid := SanitizeInput (ProductID req) in
           Decode (Body r) = inr req
           /\ channel w'
              = (channel w ++ [("orders", order_msg id pid (Quantity req))])%list
           /\ In (EvInsert pid (Quantity req) (inr id)) (new_events w w')
           /\ In (mkRow id pid (Quantity req) "pending" now) (rows_of (orders w'))).
Proof.
  intros Hrun.
  destruct (buyHandler_cases be r w)
    as [[_ H]|[[_ (e & _ & H)]|[[_ (req & t' & e & _ & _ & H)]
                               |[HM (req & tb & now & HD & Ht & Hex & H)]]]];
    rewrite H in Hrun; injection Hrun as <- <-.
  - rewrite new_events_same. split; [|left; reflexivity].
    intros [|? pre] ? ? ? ? E; discriminate E.
  - rewrite new_events_same. split; [|left; reflexivity].
    intros [|? pre] ? ? ? ? E; discriminate E.
  - rewrite new_events_app. split; [|left; reflexivity].
    intros pre ? ? ? ? E. find_publish E pre.
  - rewrite new_events_app. simpl rows_of. simpl channel.
    assert (In (mkRow (serial tb) (SanitizeInput (ProductID req)) (Quantity req)
                      "pending" now)
               (rows tb ++ [mkRow (serial tb) (SanitizeInput (ProductID req))
                                  (Quantity req) "pending" now])) as Hin
      by (apply in_or_app; right; left; reflexivity).
    split.
    + intros pre chan msg err post E.
      exists req, (serial tb), now. cbv zeta.
      destruct (publish_err be); simpl in E;
        destruct pre as [|x0 pre]; simpl in E; try discriminate E;
        injection E as <- E;
        destruct pre as [|x1 pre]; simpl in E;
        [ injection E as <- <- <- <-; repeat split; assumption
        | injection E as _ E; find_publish E pre
        | injection E as <- <- <- <-; repeat split; assumption
        | injection E as _ E; find_publish E pre ].
    + destruct (publish_err be); [left; reflexivity|].
      right. exists req, (serial tb), now. cbv zeta.
      split; [exact HD|]. split; [reflexivity|].
      split; [left; reflexivity|exact Hin].
Qed.

Lemma publish_follows_persist_witness :
  exists req id now,
    Decode (Body script_request) = inr req
    /\ [EvInsert "script" 2 (inr 1)]
       = [EvInsert (SanitizeInput (ProductID req)) (Quantity req) (inr id)]
    /\ "orders" = "orders"
    /\ order_msg 1 "script" 2
       = order_msg id (SanitizeInput (ProductID req)) (Quantity req)
    /\ In (mkRow id (SanitizeInput (ProductID req)) (Quantity req) "pending" now)
          [mkRow 1 "script" 2 "pending" 1700000000].
Proof.
  exact (proj1 (publish_follows_persist both_up script_request fresh_world
                  (Done (mkResponse 200 "application/json" (JSON (ok_body 1 "script"))))
                  (mkWorld (Some (mkTable [mkRow 1 "script" 2 "pending" 1700000000] 2))
                           [("orders", order_msg 1 "script" 2)]
                           [EvInsert "script" 2 (inr 1);
                            EvPublish "orders" (order_msg 1 "script" 2) None;
                            EvLog "Processed order #1 for ProductID: script"])
                  eq_refl)
               [EvInsert "script" 2 (inr 1)] "orders" (order_msg 1 "script" 2) None
               [EvLog "Processed order #1 for ProductID: script"] eq_refl).
Defined.

(** Which bodies decode, and how members combine. *)

Section DecodingMore.

Lemma decode_member_ok req m :
  member_ok m = true -> exists req', decode_member req m = inr req'.
Proof.
  unfold member_ok, decode_member.
  destruct (field_of_key (fst m)) as [[|]|].
  - destruct (snd m); try discriminate; intros _; eexists; reflexivity.
  - destruct (snd m) as [| |[z|]| | |]; try discriminate.
    + intros _; eexists; reflexivity.
    + intros ->. eexists; reflexivity.
  - intros _; eexists; reflexivity.
Qed.

Lemma decode_member_bad req m :
  member_ok m = false -> exists e, decode_member req m = inl e.
Proof.
  unfold member_ok, decode_member.
  destruct (field_of_key (fst m)) as [[|]|].
  - destruct (snd m); try discriminate; intros _; eexists; reflexivity.
  - destruct (snd m) as [| |[z|]| | |]; try discriminate;
      try (intros _; eexists; reflexivity).
    intros ->. eexists; reflexivity.
  - discriminate.
Qed.

Lemma decode_members_succeeds_iff ms : forall req,
  (exists req', decode_members req ms = inr req') <-> forallb member_ok ms = true.
Proof.
  induction ms as [|m ms IH]; intros req; simpl.
  - split; [reflexivity|]. intros _. eexists; reflexivity.
  - destruct (member_ok m) eqn:Hm; simpl.
    + destruct (decode_member_ok req m Hm) as [req1 ->]. apply IH.
    + destruct (decode_member_bad req m Hm) as [e ->].
      split; [intros [? H]; discriminate H|discriminate].
Qed.

Lemma decode_members_skips_unknown ms : forall req,
  decode_members req (filter known_member ms) = decode_members req ms.
Proof.
  induction ms as [|m ms IH]; intros req; simpl; [reflexivity|].
  unfold known_member at 1, decode_member.
  destruct (field_of_key (fst m)) as [f|] eqn:Hf.
  - simpl. unfold decode_member. rewrite Hf.
    destruct f; destruct (snd m) as [| |[z|]| | |]; try reflexivity;
      try apply IH.
    destruct ((min_int <=? z) && (z <=? max_int))%bool; [apply IH|reflexivity].
  - apply IH.
Qed.

Lemma decode_members_app ms1 : forall ms2 req,
  decode_members req (ms1 ++ ms2)
  = match decode_members req ms1 with
    | inl e => inl e
    | inr req1 => decode_members req1 ms2
    end.
Proof.
  induction ms1 as [|m ms1 IH]; intros ms2 req; simpl; [reflexivity|].
  destruct (decode_member req m); [reflexivity|apply IH].
Qed.

End DecodingMore.

(** C10 as stated fails: the body [{"quantity": "two"}] is valid JSON and
    has no [product_id] member, yet the handler rejects it with 400. *)
Lemma ill_typed_member_is_rejected :
  ~ (forall be r w v,
       Method r = MethodPost ->
       Body r = Some v ->
       omits FProductID v = true \/ omits FQuantity v = true ->
       exists resp w',
         buyHandler be r w = (Done resp, w') /\ StatusCode resp <> 400).
Proof.
  intros H.
  destruct (H both_up ill_typed_request fresh_world _ eq_refl eq_refl
              (or_introl eq_refl)) as (resp & w' & Hrun & Hcode).
  apply Hcode. injection Hrun as <- _. reflexivity.
Qed.

(** C10, amended: a POST whose body is [null] or an object whose
    [product_id] members are strings or [null] and whose [quantity]
    members are integer literals in [int] range or [null] is not rejected
    for a missing member.  The body decodes; a field no member is stored
    into keeps its zero value (the empty string, 0); the insert is
    attempted with the decoded values; and when the store takes it the
    client receives 200 with the identifier of a row holding them. *)
Theorem omitted_fields_take_zero_values be r w v :
  Method r = MethodPost ->
  Body r = Some v ->
  well_typed_body v = true ->
  exists req,
    let pid := SanitizeInput (ProductID req) in
    Decode (Body r) = inr req
    /\ (omits FProductID v = true -> ProductID req = "" /\ pid = "")
    /\ (omits FQuantity v = true -> Quantity req = 0)
    /\ exists resp w' res rest,
         buyHandler be r w = (Done resp, w')
         /\ StatusCode resp <> 400
         /\ StatusCode resp <> 405
         /\ res = snd (insert_row (insert_res be) (orders w) pid (Quantity req)
                                  "pending")
         /\ new_events w w' = EvInsert pid (Quantity req) res :: rest
         /\ (forall id, res = inr id ->
             StatusCode resp = 200
             /\ Payload resp = JSON (ok_body id pid)
             /\ exists now,
                  In (mkRow id pid (Quantity req) "pending" now)
                     (rows_of (orders w'))).
Proof.
  intros HM HB Hwt.
  assert (exists req, Decode (Body r) = inr req) as [req HD].
  { rewrite HB. unfold Decode.
    destruct v as [| | | | |ms]; try discriminate Hwt.
    - eexists; reflexivity.
    - apply decode_members_succeeds_iff. exact Hwt. }
  exists req. cbv zeta.
  split; [exact HD|].
  pose proof HD as HD'. rewrite HB in HD'.
  destruct (Decode_omitted _ _ HD') as [Hp Hq].
  split; [intros Ho; rewrite (Hp Ho); split; reflexivity|].
  split; [exact Hq|].
  destruct (insert_row (insert_res be) (orders w)
              (SanitizeInput (ProductID req)) (Quantity req) "pending")
    as [t1 [e1|id1]] eqn:HI.
  - eexists. eexists. exists (inl e1). eexists.
    split; [exact (buyHandler_refused be r w req t1 e1 HM HD HI)|].
    split; [discriminate|]. split; [discriminate|].
    split; [reflexivity|].
    split; [rewrite new_events_app; reflexivity|].
    intros id Hid. discriminate Hid.
  - destruct (insert_row_inr _ _ _ _ _ _ _ HI)
      as (now & tb & _ & _ & _ & _ & Ht1).
    pose proof (buyHandler_persisted be r w req t1 id1 HM HD HI) as Hrun.
    cbv zeta in Hrun.
    eexists. eexists. exists (inr id1). eexists.
    split; [exact Hrun|].
    split; [discriminate|]. split; [discriminate|].
    split; [reflexivity|].
    split; [rewrite new_events_app; reflexivity|].
    intros id Hid. injection Hid as <-.
    split; [reflexivity|]. split; [reflexivity|].
    exists now. cbn [orders]. rewrite Ht1. cbn [rows_of rows].
    apply in_or_app. right. left. reflexivity.
Qed.

Lemma omitted_fields_take_zero_values_witness :
  exists req resp w',
    Decode (Body product_only_request) = inr req
    /\ Quantity req = 0
    /\ buyHandler both_up product_only_request fresh_world = (Done resp, w')
    /\ StatusCode resp = 200
    /\ Payload resp = JSON (ok_body 1 "book")
    /\ exists now, In (mkRow 1 "book" 0 "pending" now) (rows_of (orders w')).
Proof.
  destruct (omitted_fields_take_zero_values both_up product_only_request
              fresh_world (Json.Object [("product_id", Json.Str "book")])
              eq_refl eq_refl eq_refl)
    as (req & HD & _ & Hq & resp & w' & res & rest & Hrun & _ & _ & Hres & _ & Hok).
  exists req, resp, w'.
  injection HD as <-.
  destruct (Hok 1 Hres) as (Hcode & Hpay & Hrow).
  repeat split; assumption || reflexivity.
Defined.

(** ** Start-up *)

Section Bootstrap.

Variable b : Boot.

Local Arguments String.append : simpl never.

Lemma connect_loop_fail n i err w e :
  attempt_err b i = Some e ->
  connect_loop b (S n) i err w
  = connect_loop b n (S i) (Some e)
      (mkWorld (orders w) (channel w) (trace w ++ failed_attempt b i)).
Proof.
  unfold attempt_err, failed_attempt, attempt_events, attempt_err.
  intros H. simpl connect_loop.
  unfold bind, sql_Open, db_Ping, Println, Sleep, emit, ret, bind. simpl.
  destruct (open_err b i) as [e0|].
  - injection H as ->. simpl. rewrite <- !app_assoc. reflexivity.
  - simpl. rewrite H. simpl. rewrite <- !app_assoc. reflexivity.
Qed.

Lemma connect_loop_ok n i err w :
  attempt_err b i = None ->
  connect_loop b (S n) i err w
  = (Done None,
     mkWorld (orders w) (channel w)
             (trace w ++ attempt_events b i ++ [EvLog "Connected to Database"])).
Proof.
  unfold attempt_err, attempt_events.
  intros H. simpl connect_loop.
  unfold bind, sql_Open, db_Ping, Println, emit, ret, bind. simpl.
  destruct (open_err b i) as [e0|]; [discriminate|].
  simpl. rewrite H. simpl. rewrite <- !app_assoc. reflexivity.
Qed.

(** The loop stops at the first attempt that succeeds. *)
Lemma connect_loop_connects k : forall n i err w,
  (k < n)%nat ->
  (forall j, (j < k)%nat -> attempt_err b (i + j) <> None) ->
  attempt_err b (i + k) = None ->
  connect_loop b n i err w
  = (Done None,
     mkWorld (orders w) (channel w)
             (trace w ++ flat_map (failed_attempt b) (seq i k)
                      ++ attempt_events b (i + k)
                      ++ [EvLog "Connected to Database"])).
Proof.
  induction k as [|k IH]; intros n i err w Hn Hfail Hok;
    (destruct n as [|n]; [lia|]).
  - rewrite Nat.add_0_r in *. simpl flat_map. apply connect_loop_ok, Hok.
  - destruct (attempt_err b i) as [e|] eqn:Hi.
    2:{ exfalso. apply (Hfail 0%nat); [lia|]. rewrite Nat.add_0_r. exact Hi. }
    rewrite (connect_loop_fail _ _ _ _ _ Hi).
    rewrite (IH n (S i)); [| lia | | ].
    + simpl. rewrite <- !app_assoc, Nat.add_succ_r. reflexivity.
    + intros j Hj. specialize (Hfail (S j) ltac:(lia)).
      rewrite Nat.add_succ_r in Hfail. exact Hfail.
    + rewrite Nat.add_succ_r in Hok. exact Hok.
Qed.

(** Without a success the loop runs all its iterations and leaves the
    last error in [err]. *)
Lemma connect_loop_exhausts n : forall i err w,
  (forall j, (j < n)%nat -> attempt_err b (i + j) <> None) ->
  exists last,
    (n <> 0%nat -> last <> None)
    /\ connect_loop b n i err w
       = (Done (match n with O => err | S _ => last end),
          mkWorld (orders w) (channel w)
                  (trace w ++ flat_map (failed_attempt b) (seq i n))).
Proof.
  induction n as [|n IH]; intros i err w Hfail.
  - exists None. split; [congruence|]. simpl. unfold ret.
    rewrite app_nil_r. destruct w; reflexivity.
  - destruct (attempt_err b i) as [e|] eqn:Hi.
    2:{ exfalso. apply (Hfail 0%nat); [lia|]. rewrite Nat.add_0_r. exact Hi. }
    rewrite (connect_loop_fail _ _ _ _ _ Hi).
    destruct (IH (S i) (Some e)
                 (mkWorld (orders w) (channel w) (trace w ++ failed_attempt b i)))
      as (last & Hlast & Hrun).
    { intros j Hj. specialize (Hfail (S j) ltac:(lia)).
      rewrite Nat.add_succ_r in Hfail. exact Hfail. }
    exists (match n with O => Some e | S _ => last end).
    split.
    + intros _. destruct n; [discriminate|]. apply Hlast. discriminate.
    + rewrite Hrun. simpl. rewrite <- !app_assoc. reflexivity.
Qed.

(** Either some attempt below [n] is the first to succeed, or none does. *)
Lemma first_success_or_none n :
  (exists k, (k < n)%nat /\ first_success b k)
  \/ (forall j, (j < n)%nat -> attempt_err b j <> None).
Proof.
  induction n as [|n [(k & Hk & Hf)|Hnone]].
  - right. intros j Hj. lia.
  - left. exists k. split; [lia|exact Hf].
  - destruct (attempt_err b n) as [e|] eqn:Hn.
    + right. intros j Hj. destruct (Nat.eq_dec j n) as [->|Hne].
      * rewrite Hn. discriminate.
      * apply Hnone. lia.
    + left. exists n. split; [lia|]. split; assumption.
Qed.

End Bootstrap.

Section Startup.

Variable b : Boot.
Variable w : World.

Local Arguments String.append : simpl never.

Lemma initRedis_run w1 :
  initRedis b w1
  = match redis_ping_err b with
    | None =>
        (Done tt, mkWorld (orders w1) (channel w1)
                          (trace w1 ++ [EvRedisPing None; EvLog "Connected to Redis"]))
    | Some e =>
        (Exited 1, mkWorld (orders w1) (channel w1)
                           (trace w1 ++ [EvRedisPing (Some e);
                                         EvLog ("Could not connect to Redis: " ++ e);
                                         EvExit 1]))
    end.
Proof.
  unfold initRedis, redis_Ping, bind, emit, ret, Println, Fatalf, emit. simpl.
  destruct (redis_ping_err b); simpl; rewrite <- !app_assoc; reflexivity.
Qed.

Lemma main_connected k :
  (k < 10)%nat -> first_success b k ->
  main b w
  = (if boot_ok b then Done tt else Exited 1,
     mkWorld (match create_err b with
              | None => ensure_table (orders w)
              | Some _ => orders w
              end)
             (channel w)
             (trace w ++ connect_events b k ++ after_connect b)).
Proof.
  intros Hk [Hok Hfail].
  unfold main, initDB. fold (port_of b).
  unfold bind at 1. unfold bind at 1. unfold bind at 1.
  rewrite (connect_loop_connects b k 10 0 None w Hk Hfail Hok).
  unfold connect_events, after_connect, boot_ok.
  unfold bind, ret, db_Exec_create, Fatalf. simpl Nat.add.
  cbv beta iota.
  destruct (create_err b) as [e|]; cbn [orders channel trace].
  { rewrite <- !app_assoc. reflexivity. }
  rewrite initRedis_run.
  destruct (redis_ping_err b) as [e|]; cbn [orders channel trace].
  { rewrite <- !app_assoc. reflexivity. }
  unfold Println, ListenAndServe, bind, emit, ret.
  cbn [orders channel trace].
  destruct (listen_err b) as [e|]; cbn [orders channel trace];
    rewrite <- !app_assoc; reflexivity.
Qed.

Lemma main_exhausted :
  never_connects b ->
  exists e,
    main b w
    = (Exited 1,
       mkWorld (orders w) (channel w)
               (trace w ++ flat_map (failed_attempt b) (seq 0 10)
                        ++ [EvLog ("Could not connect to database: " ++ e);
                            EvExit 1])).
Proof.
  intros Hnone.
  destruct (connect_loop_exhausts b 10 0 None w Hnone) as (last & Hlast & Hrun).
  destruct last as [e|]; [|exfalso; apply Hlast; [discriminate|reflexivity]].
  exists e.
  unfold main, initDB.
  unfold bind at 1. unfold bind at 1. unfold bind at 1.
  rewrite Hrun. unfold Fatalf. cbn [orders channel trace].
  rewrite <- !app_assoc. reflexivity.
Qed.

End Startup.

Section Counting.

Variable b : Boot.

Lemma count_app p (s t : list Event) :
  count p (s ++ t) = (count p s + count p t)%nat.
Proof. unfold count. rewrite filter_app, length_app. reflexivity. Qed.

Lemma count_open_attempt i : count is_open (attempt_events b i) = 1%nat.
Proof. unfold attempt_events. destruct (open_err b i); reflexivity. Qed.

Lemma count_open_retries l :
  count is_open (flat_map (failed_attempt b) l) = List.length l.
Proof.
  induction l as [|i l IH]; [reflexivity|].
  simpl flat_map. unfold failed_attempt at 1.
  rewrite !count_app, count_open_attempt, IH. reflexivity.
Qed.

Lemma count_open_after : count is_open (after_connect b) = 0%nat.
Proof.
  unfold after_connect.
  destruct (create_err b), (redis_ping_err b), (listen_err b); reflexivity.
Qed.

Lemma count_other_attempt p i :
  (forall k e, p (EvOpen k e) = false) ->
  (forall k e, p (EvDBPing k e) = false) ->
  count p (attempt_events b i) = 0%nat.
Proof.
  intros H1 H2. unfold attempt_events, count.
  destruct (open_err b i); simpl; rewrite ?H1, ?H2; reflexivity.
Qed.

Lemma count_other_retries p l :
  (forall k e, p (EvOpen k e) = false) ->
  (forall k e, p (EvDBPing k e) = false) ->
  (forall s, p (EvLog s) = false) ->
  (forall d, p (EvSleep d) = false) ->
  count p (flat_map (failed_attempt b) l) = 0%nat.
Proof.
  intros H1 H2 H3 H4.
  induction l as [|i l IH]; [reflexivity|].
  simpl flat_map. unfold failed_attempt at 1.
  rewrite !count_app, count_other_attempt, IH by assumption.
  unfold count. simpl. rewrite H3, H4. reflexivity.
Qed.

Lemma count_redis_ping_after :
  (count is_redis_ping (after_connect b) <= 1)%nat.
Proof.
  unfold after_connect.
  destruct (create_err b), (redis_ping_err b), (listen_err b);
    unfold count; simpl; lia.
Qed.

Lemma count_listen_after :
  create_err b <> None \/ redis_ping_err b <> None ->
  count is_listen (after_connect b) = 0%nat.
Proof.
  unfold after_connect.
  destruct (create_err b), (redis_ping_err b), (listen_err b);
    intros [H|H]; try reflexivity; exfalso; apply H; reflexivity.
Qed.

End Counting.

(** C6: at start-up the store connection (open, then ping) is attempted
    at most 10 times, with a wait of 2 after each failed attempt, and the
    loop stops at the first success and goes on to the table creation,
    which creates the table when it is missing and leaves an existing one
    as it is, so that a second start-up changes nothing; the channel is
    pinged once, without retry; exhausting the
    10 attempts, a failing table creation, or a failing channel ping ends
    the process before the listener is started. *)
Theorem startup_contract b w :
  let t := new_events w (snd (main b w)) in
  (count is_open t <= 10)%nat
  /\ (forall k, (k < 10)%nat -> first_success b k ->
      exists rest,
        t = (connect_events b k ++ EvCreateTable (create_err b) :: rest)%list
        /\ count is_open t = S k)
  /\ (never_connects b ->
      exists e,
        t = (flat_map (failed_attempt b) (seq 0 10)
             ++ [EvLog ("Could not connect to database: " ++ e); EvExit 1])%list)
  /\ (forall tb, ensure_table (ensure_table tb) = ensure_table tb)
  /\ (forall w1, count is_redis_ping (new_events w1 (snd (initRedis b w1))) = 1%nat)
  /\ (count is_redis_ping t <= 1)%nat
  /\ (never_connects b \/ create_err b <> None \/ redis_ping_err b <> None ->
      fst (main b w) = Exited 1 /\ count is_listen t = 0%nat)
  /\ (forall k, (k < 10)%nat -> first_success b k ->
      (create_err b = None ->
       orders (snd (main b w)) = ensure_table (orders w)
       /\ (forall tb, orders w = Some tb -> orders (snd (main b w)) = Some tb)
       /\ (orders w = None -> orders (snd (main b w)) = Some (mkTable [] 1)))
      /\ (create_err b <> None -> orders (snd (main b w)) = orders w))
  /\ (forall k b2 k2,
      (k < 10)%nat -> first_success b k -> create_err b = None ->
      (k2 < 10)%nat -> first_success b2 k2 -> create_err b2 = None ->
      orders (snd (main b2 (snd (main b w)))) = orders (snd (main b w))).
Proof.
  intros t.
  assert (forall k, (k < 10)%nat -> first_success b k ->
          t = (connect_events b k ++ after_connect b)%list) as Hconn.
  { intros k Hk Hf. unfold t. rewrite (main_connected b w k Hk Hf).
    apply new_events_app. }
  assert (never_connects b ->
          exists e,
            fst (main b w) = Exited 1
            /\ t = (flat_map (failed_attempt b) (seq 0 10)
                    ++ [EvLog ("Could not connect to database: " ++ e);
                        EvExit 1])%list) as Hdead.
  { intros Hn. destruct (main_exhausted b w Hn) as (e & He). exists e.
    unfold t. rewrite He. split; [reflexivity|apply new_events_app]. }
  assert (forall k, count is_open (connect_events b k ++ after_connect b) = S k)
    as Hopens.
  { intros k. unfold connect_events.
    rewrite !count_app, count_open_retries, count_open_attempt, count_open_after,
      length_seq.
    unfold count. simpl. lia. }
  split.
  { destruct (first_success_or_none b 10) as [(k & Hk & Hf)|Hn].
    - rewrite (Hconn k Hk Hf), Hopens. lia.
    - destruct (Hdead Hn) as (e & _ & ->).
      rewrite count_app, count_open_retries, length_seq. unfold count. simpl. lia. }
  split.
  { intros k Hk Hf. rewrite (Hconn k Hk Hf).
    assert (exists rest, after_connect b = EvCreateTable (create_err b) :: rest)
      as [rest Hrest]
      by (unfold after_connect; destruct (create_err b); eexists; reflexivity).
    exists rest. split; [rewrite Hrest; reflexivity|apply Hopens]. }
  split.
  { intros Hn. destruct (Hdead Hn) as (e & _ & He). exists e. exact He. }
  split.
  { intros [tb|]; reflexivity. }
  split.
  { intros w1. rewrite initRedis_run.
    destruct (redis_ping_err b); cbn [snd]; rewrite new_events_app; reflexivity. }
  split.
  { destruct (first_success_or_none b 10) as [(k & Hk & Hf)|Hn].
    - rewrite (Hconn k Hk Hf). unfold connect_events.
      rewrite !count_app, count_other_retries, count_other_attempt by reflexivity.
      pose proof (count_redis_ping_after b). unfold count at 1. simpl. lia.
    - destruct (Hdead Hn) as (e & _ & ->).
      rewrite count_app, count_other_retries by reflexivity.
      unfold count. simpl. lia. }
  split.
  {
    intros Hfatal.
    destruct (first_success_or_none b 10) as [(k & Hk & Hf)|Hn].
    - destruct Hfatal as [Hn|Hfatal].
      { exfalso. destruct Hf as [Hok _]. exact (Hn k Hk Hok). }
      rewrite (Hconn k Hk Hf). rewrite (main_connected b w k Hk Hf).
      split.
      + unfold boot_ok. cbn [fst].
        destruct (create_err b), (redis_ping_err b), (listen_err b);
          try reflexivity; destruct Hfatal as [H|H]; exfalso; apply H; reflexivity.
      + unfold connect_events.
        rewrite !count_app, count_other_retries, count_other_attempt,
          (count_listen_after b Hfatal) by reflexivity.
        reflexivity.
    - destruct (Hdead Hn) as (e & Hexit & ->).
      split; [exact Hexit|].
      rewrite count_app, count_other_retries by reflexivity. reflexivity.
  }
  split.
  { intros k Hk Hf. rewrite (main_connected b w k Hk Hf). cbn [snd orders].
    split.
    - intros ->. split; [reflexivity|]. split.
      + intros tb ->. reflexivity.
      + intros ->. reflexivity.
    - intros Hc. destruct (create_err b); [reflexivity|].
      exfalso. apply Hc. reflexivity. }
  intros k b2 k2 Hk Hf Hc Hk2 Hf2 Hc2.
  rewrite (main_connected b2 _ k2 Hk2 Hf2). cbn [snd orders]. rewrite Hc2.
  rewrite (main_connected b w k Hk Hf). cbn [snd orders]. rewrite Hc.
  destruct (orders w); reflexivity.
Qed.

Lemma startup_contract_witness :
  (exists rest,
     new_events cold_world (snd (main late_store cold_world))
     = (connect_events late_store 2
        ++ EvCreateTable (create_err late_store) :: rest)%list
     /\ count is_open (new_events cold_world (snd (main late_store cold_world)))
        = 3%nat)
  /\ (fst (main dead_store cold_world) = Exited 1
      /\ count is_listen (new_events cold_world (snd (main dead_store cold_world)))
         = 0%nat)
  /\ orders (snd (main late_store cold_world)) = Some created_table
  /\ orders (snd (main late_store (snd (main late_store cold_world))))
     = orders (snd (main late_store cold_world)).
Proof.
  assert (first_success late_store 2) as Hf.
  { split; [reflexivity|].
    intros [|[|j]] Hj; [discriminate|discriminate|lia]. }
  assert (2 < 10)%nat as Hk by lia.
  split; [|split; [|split]].
  - exact (proj1 (proj2 (startup_contract late_store cold_world)) 2%nat Hk Hf).
  - apply (proj1 (proj2 (proj2 (proj2 (proj2 (proj2 (proj2
             (startup_contract dead_store cold_world)))))))).
    left. intros j _. discriminate.
  - exact (proj2 (proj2 (proj1 (proj1 (proj2 (proj2 (proj2 (proj2 (proj2 (proj2
             (proj2 (startup_contract late_store cold_world))))))))
             2%nat Hk Hf) eq_refl)) eq_refl).
  - exact (proj2 (proj2 (proj2 (proj2 (proj2 (proj2 (proj2 (proj2
             (startup_contract late_store cold_world))))))))
             2%nat late_store 2%nat Hk Hf eq_refl Hk Hf eq_refl).
Defined.

(** * Further properties of the code *)

(** ** SanitizeInput *)

Section SanitizeMore.

Lemma filter_string_app (p : ascii -> bool) (a b : string) :
  filter_string p (a ++ b) = filter_string p a ++ filter_string p b.
Proof.
  induction a as [|c a IH]; simpl; [reflexivity|].
  destruct (p c); simpl; rewrite IH; reflexivity.
Qed.

Lemma strip_length (s : string) :
  (String.length (strip_denylist s) + count_denied s = String.length s)%nat.
Proof.
  unfold strip_denylist.
  induction s as [|c t IH]; simpl; [reflexivity|].
  destruct (denied c); simpl; lia.
Qed.

End SanitizeMore.

(** X1: sanitizing a concatenation is concatenating the sanitized parts;
    joining two sanitized strings cannot bring a denied character back. *)
Theorem SanitizeInput_app (a b : string) :
  SanitizeInput (a ++ b) = SanitizeInput a ++ SanitizeInput b.
Proof.
  rewrite !SanitizeInput_strip. apply filter_string_app.
Qed.

(** X2: the output is shorter than the input by exactly the number of
    denied characters the input holds; in particular it is never longer. *)
Theorem SanitizeInput_length (s : string) :
  (String.length (SanitizeInput s) + count_denied s = String.length s)%nat.
Proof.
  rewrite SanitizeInput_strip. apply strip_length.
Qed.

(** X3: [SanitizeInput] returns its input unchanged exactly when the
    input holds no denied character. *)
Theorem SanitizeInput_fixpoint (s : string) :
  SanitizeInput s = s <-> count_denied s = 0%nat.
Proof.
  split.
  - intros H. pose proof (SanitizeInput_length s) as L. rewrite H in L. lia.
  - rewrite SanitizeInput_strip. unfold strip_denylist.
    induction s as [|c t IH]; simpl; [reflexivity|].
    destruct (denied c); simpl; [discriminate|].
    intros H. rewrite (IH H). reflexivity.
Qed.

(** X4: a character that is not on the deny list occurs in the output as
    often as in the input: nothing but the four characters is lost. *)
Theorem SanitizeInput_keeps_other_characters (c : ascii) (s : string) :
  denied c = false ->
  count_char c (SanitizeInput s) = count_char c s.
Proof.
  intros Hc. rewrite SanitizeInput_strip. unfold strip_denylist.
  induction s as [|d t IH]; simpl; [reflexivity|].
  destruct (denied d) eqn:Hd; simpl; rewrite IH; [|reflexivity].
  destruct (Ascii.eqb d c) eqn:E; [|reflexivity].
  apply Ascii.eqb_eq in E. congruence.
Qed.

Lemma SanitizeInput_keeps_other_characters_witness :
  count_char "s" (SanitizeInput "<s>';s") = count_char "s" "<s>';s".
Proof.
  exact (SanitizeInput_keeps_other_characters "s" "<s>';s" eq_refl).
Defined.

(** ** Decoding the request body *)


(** X5: an object body decodes exactly when each of its members can be
    stored: members under unknown keys always can, [product_id] must be a
    string or [null], [quantity] an integer literal in [int] range or
    [null].  One bad member anywhere makes the whole body fail. *)
Theorem Decode_object_succeeds_iff (ms : list (string * Json.value)) :
  (exists req, Decode (Some (Json.Object ms)) = inr req)
  <-> forallb member_ok ms = true.
Proof.
  unfold Decode. apply decode_members_succeeds_iff.
Qed.

(** X6: members under keys that name neither field are ignored: removing
    them from the body does not change what the decoder returns. *)
Theorem Decode_ignores_unknown_members (ms : list (string * Json.value)) :
  Decode (Some (Json.Object (filter known_member ms)))
  = Decode (Some (Json.Object ms)).
Proof.
  unfold Decode. apply decode_members_skips_unknown.
Qed.


(** X8: members are stored in stream order, so for a field named more
    than once the last member decides: a body ending in a [quantity]
    (or [product_id]) member decodes to that member's value. *)
Theorem Decode_last_member_wins ms k v req :
  Decode (Some (Json.Object (ms ++ [(k, v)]))) = inr req ->
  (field_of_key k = Some FQuantity ->
   forall q, v = Json.Number (Json.Integer q) -> Quantity req = q)
  /\ (field_of_key k = Some FProductID ->
      forall p, v = Json.Str p -> ProductID req = p).
Proof.
  unfold Decode. rewrite decode_members_app.
  destruct (decode_members (mkOrderRequest "" 0) ms) as [e|req1]; [discriminate|].
  simpl. unfold decode_member. simpl fst. simpl snd. intros H.
  split; intros Hk x ->; rewrite Hk in H.
  - destruct ((min_int <=? x) && (x <=? max_int))%bool; [|discriminate].
    injection H as <-. reflexivity.
  - injection H as <-. reflexivity.
Qed.

Lemma Decode_last_member_wins_witness :
  Quantity (mkOrderRequest "" 7) = 7.
Proof.
  exact (proj1 (Decode_last_member_wins
                  [("quantity", Json.Number (Json.Integer 3))] "Quantity"
                  (Json.Number (Json.Integer 7)) (mkOrderRequest "" 7) eq_refl)
               eq_refl 7 eq_refl).
Defined.

(** ** One request *)

(** X9: whatever the request and whatever the two services answer, the
    handler returns a response and never ends the process; the status is
    one of 200, 400, 405 and 500. *)
Theorem buyHandler_always_answers be r w :
  exists resp w',
    buyHandler be r w = (Done resp, w')
    /\ (StatusCode resp = 200 \/ StatusCode resp = 400
        \/ StatusCode resp = 405 \/ StatusCode resp = 500).
Proof.
  destruct (buyHandler_cases be r w)
    as [[_ H]|[[_ (e & _ & H)]|[[_ (req & t' & e & _ & _ & H)]
                               |[_ (req & tb & now & _ & _ & _ & H)]]]];
    rewrite H; eexists; eexists; (split; [reflexivity|]); simpl; auto.
Qed.

(** X10: a request makes at most one insert call and at most one publish
    call, and no publish call without an insert call: neither step is
    retried. *)
Theorem buyHandler_makes_single_attempts be r w :
  let t := new_events w (snd (buyHandler be r w)) in
  (count is_insert t <= 1)%nat /\ (count is_publish t <= count is_insert t)%nat.
Proof.
  destruct (buyHandler_cases be r w)
    as [[_ H]|[[_ (e & _ & H)]|[[_ (req & t' & e & _ & _ & H)]
                               |[_ (req & tb & now & _ & _ & _ & H)]]]];
    rewrite H; cbn [snd]; rewrite ?new_events_same, ?new_events_app;
    try (unfold count; simpl; lia).
  destruct (publish_err be); unfold count; simpl; lia.
Qed.

(** X11: the handler only appends: the rows, the channel and the trace
    it was given are prefixes of the ones it leaves.  It adds at most one
    row, a message only together with a row, and a row exactly when it
    answers 200. *)
Theorem buyHandler_append_only be r w resp w' :
  buyHandler be r w = (Done resp, w') ->
  exists added msgs evs,
    rows_of (orders w') = (rows_of (orders w) ++ added)%list
    /\ channel w' = (channel w ++ msgs)%list
    /\ trace w' = (trace w ++ evs)%list
    /\ (List.length msgs <= List.length added <= 1)%nat
    /\ (List.length added = 1%nat <-> StatusCode resp = 200).
Proof.
  intros Hrun.
  destruct (buyHandler_cases be r w)
    as [[_ H]|[[_ (e & _ & H)]|[[_ (req & t' & e & _ & HI & H)]
                               |[_ (req & tb & now & _ & Ht & _ & H)]]]];
    rewrite H in Hrun; injection Hrun as <- <-.
  - exists [], [], []. rewrite !app_nil_r. simpl.
    repeat split; try lia; discriminate.
  - exists [], [], []. rewrite !app_nil_r. simpl.
    repeat split; try lia; discriminate.
  - exists [], [],
      [EvInsert (SanitizeInput (ProductID req)) (Quantity req) (inl e);
       EvLog ("DB Insert Error: " ++ e)].
    cbn [orders channel trace].
    rewrite (insert_row_inl _ _ _ _ _ _ _ HI), !app_nil_r.
    split; [reflexivity|]. split; [reflexivity|]. split; [reflexivity|].
    simpl. repeat split; try lia; discriminate.
  - cbn [orders channel trace rows_of]. rewrite Ht. cbn [rows_of].
    destruct (publish_err be).
    + eexists; exists []; eexists.
      split; [reflexivity|]. split; [symmetry; apply app_nil_r|].
      split; [reflexivity|].
      simpl. split; [lia|]. split; reflexivity.
    + eexists; eexists; eexists.
      split; [reflexivity|]. split; [reflexivity|]. split; [reflexivity|].
      simpl. split; [lia|]. split; reflexivity.
Qed.

Lemma buyHandler_append_only_witness :
  exists added msgs evs,
    rows_of (orders script_world) = (rows_of (orders fresh_world) ++ added)%list
    /\ channel script_world = (channel fresh_world ++ msgs)%list
    /\ trace script_world = (trace fresh_world ++ evs)%list
    /\ (List.length msgs <= List.length added <= 1)%nat
    /\ (List.length added = 1%nat <-> StatusCode script_response = 200).
Proof.
  exact (buyHandler_append_only both_up script_request fresh_world
           script_response script_world eq_refl).
Defined.

(** ** Invariants of the store and the channel *)

Section Invariants.

Lemma table_wf_insert o tb pid qty st t' res :
  table_wf tb ->
  insert_row o (Some tb) pid qty st = (t', res) ->
  exists tb', t' = Some tb' /\ table_wf tb' /\ serial tb <= serial tb'.
Proof.
  intros [Hnd Hlt]. unfold insert_row. destruct o as [now|e].
  - destruct (existsb _ (rows tb)).
    + intros H. injection H as <- _. eexists. split; [reflexivity|].
      split; [|simpl; lia]. split; [exact Hnd|].
      simpl. intros row Hin. specialize (Hlt row Hin). lia.
    + intros H. injection H as <- _. eexists. split; [reflexivity|].
      split; [|simpl; lia]. split; simpl.
      * rewrite map_app. apply NoDup_app; [exact Hnd| |].
        { simpl. constructor; [intros []|constructor]. }
        { intros a Ha [Heq|[]]. apply in_map_iff in Ha.
          destruct Ha as (row & Hid & Hin). specialize (Hlt row Hin).
          simpl in Heq. lia. }
      * intros row Hin. apply in_app_or in Hin. destruct Hin as [Hin|[<-|[]]].
        { specialize (Hlt row Hin). lia. }
        { simpl. lia. }
  - intros H. injection H as <- _. exists tb.
    split; [reflexivity|]. split; [split; assumption|lia].
Qed.

Lemma table_wf_fresh_id tb :
  table_wf tb -> existsb (fun row => row_id row =? serial tb) (rows tb) = false.
Proof.
  intros [_ Hlt]. destruct (existsb _ (rows tb)) eqn:E; [|reflexivity].
  apply existsb_exists in E. destruct E as (row & Hin & Heq).
  apply Z.eqb_eq in Heq. specialize (Hlt row Hin). lia.
Qed.

Lemma count_denied_strip s : count_denied (strip_denylist s) = 0%nat.
Proof.
  unfold strip_denylist. induction s as [|c t IH]; simpl; [reflexivity|].
  destruct (denied c) eqn:Hc; simpl; [exact IH|]. rewrite Hc, IH. reflexivity.
Qed.

End Invariants.

(** X12: the handler keeps the table well formed: if the identifiers are
    pairwise distinct and below the sequence before a request, they are
    after it, whatever the request and the services' answers. *)
Theorem buyHandler_keeps_table_wf be r w o w' :
  world_wf w ->
  buyHandler be r w = (o, w') ->
  world_wf w'.
Proof.
  intros Hwf Hrun.
  destruct (buyHandler_cases be r w)
    as [[_ H]|[[_ (e & _ & H)]|[[_ (req & t' & e & _ & HI & H)]
                               |[_ (req & tb & now & _ & Ht & Hex & H)]]]];
    rewrite H in Hrun; injection Hrun as <- <-; try exact Hwf.
  - unfold world_wf in *. cbn [orders].
    destruct (orders w) as [tb|] eqn:Ht.
    + destruct (table_wf_insert _ _ _ _ _ _ _ Hwf HI) as (tb' & -> & Hwf' & _).
      exact Hwf'.
    + unfold insert_row in HI.
      destruct (insert_res be); injection HI as <- _; exact I.
  - unfold world_wf in *. cbn [orders]. rewrite Ht in Hwf.
    assert (insert_row (Accepted now) (Some tb) (SanitizeInput (ProductID req))
              (Quantity req) "pending"
            = (Some (mkTable (rows tb ++ [mkRow (serial tb)
                                 (SanitizeInput (ProductID req)) (Quantity req)
                                 "pending" now]) (serial tb + 1)),
               inr (serial tb))) as HI
      by (unfold insert_row; rewrite Hex; reflexivity).
    destruct (table_wf_insert _ _ _ _ _ _ _ Hwf HI) as (tb' & Heq & Hwf' & _).
    injection Heq as <-. exact Hwf'.
Qed.

Lemma buyHandler_keeps_table_wf_witness : world_wf script_world.
Proof.
  apply (buyHandler_keeps_table_wf both_up script_request fresh_world
           (Done script_response) script_world).
  - split; [constructor|]. intros row [].
  - reflexivity.
Defined.

(** X13: on a well-formed table the primary key never refuses the next
    identifier: a POST whose body decodes and whose insert the store
    takes is answered 200 with the current value of the sequence. *)
Theorem accepted_insert_is_answered_200 be r w tb req now :
  orders w = Some tb ->
  table_wf tb ->
  Method r = MethodPost ->
  Decode (Body r) = inr req ->
  insert_res be = Accepted now ->
  exists w',
    buyHandler be r w
    = (Done (mkResponse 200 "application/json"
               (JSON (ok_body (serial tb) (SanitizeInput (ProductID req))))), w')
    /\ next_id w' = serial tb + 1.
Proof.
  intros Ht Hwf HM HD Ho.
  assert (insert_row (insert_res be) (orders w) (SanitizeInput (ProductID req))
            (Quantity req) "pending"
          = (Some (mkTable (rows tb ++ [mkRow (serial tb)
                               (SanitizeInput (ProductID req)) (Quantity req)
                               "pending" now]) (serial tb + 1)),
             inr (serial tb))) as HI.
  { rewrite Ho, Ht. unfold insert_row.
    rewrite (table_wf_fresh_id tb Hwf). reflexivity. }
  eexists. split.
  - exact (buyHandler_persisted be r w req _ (serial tb) HM HD HI).
  - reflexivity.
Qed.

Lemma accepted_insert_is_answered_200_witness :
  exists w',
    buyHandler both_up script_request fresh_world
    = (Done (mkResponse 200 "application/json"
               (JSON (ok_body 1 (SanitizeInput "<script>")))), w')
    /\ next_id w' = 1 + 1.
Proof.
  apply (accepted_insert_is_answered_200 both_up script_request fresh_world
           (mkTable [] 1) (mkOrderRequest "<script>" 2) 1700000000 eq_refl).
  - split; [constructor|]. intros row [].
  - reflexivity.
  - reflexivity.
  - reflexivity.
Defined.

(** X14: if every message on the channel announces a stored row before a
    request, the same holds after it: the handler never leaves a
    notification without its order. *)
Theorem buyHandler_keeps_channel_backed be r w o w' :
  channel_backed w ->
  buyHandler be r w = (o, w') ->
  channel_backed w'.
Proof.
  intros Hcb Hrun.
  destruct (buyHandler_cases be r w)
    as [[_ H]|[[_ (e & _ & H)]|[[_ (req & t' & e & _ & HI & H)]
                               |[_ (req & tb & now & _ & Ht & Hex & H)]]]];
    rewrite H in Hrun; injection Hrun as <- <-; try exact Hcb.
  - unfold channel_backed in *. cbn [orders channel].
    rewrite (insert_row_inl _ _ _ _ _ _ _ HI). exact Hcb.
  - unfold channel_backed in *. cbn [orders channel rows_of].
    rewrite Ht in Hcb. cbn [rows_of] in Hcb.
    assert (forall chan msg, In (chan, msg) (channel w) ->
              chan = "orders"
              /\ exists row,
                   In row (rows tb ++ [mkRow (serial tb)
                             (SanitizeInput (ProductID req)) (Quantity req)
                             "pending" now])
                   /\ msg = order_msg (row_id row) (row_product_id row)
                                      (row_quantity row)) as Hold.
    { intros chan msg Hin. destruct (Hcb chan msg Hin) as (-> & row & Hr & ->).
      split; [reflexivity|]. exists row. split; [|reflexivity].
      apply in_or_app. left. exact Hr. }
    destruct (publish_err be); [exact Hold|].
    intros chan msg Hin. apply in_app_or in Hin.
    destruct Hin as [Hin|[Heq|[]]]; [exact (Hold chan msg Hin)|].
    injection Heq as <- <-. split; [reflexivity|].
    eexists. split; [apply in_or_app; right; left; reflexivity|reflexivity].
Qed.

Lemma buyHandler_keeps_channel_backed_witness : channel_backed script_world.
Proof.
  apply (buyHandler_keeps_channel_backed both_up script_request fresh_world
           (Done script_response) script_world).
  - intros chan msg [].
  - reflexivity.
Defined.

(** X15: every row the handler adds has status [pending] and a product
    identifier without any denied character, whatever the request held. *)
Theorem added_rows_are_sanitized be r w o w' row :
  buyHandler be r w = (o, w') ->
  In row (rows_of (orders w')) ->
  In row (rows_of (orders w))
  \/ (count_denied (row_product_id row) = 0%nat /\ row_status row = "pending").
Proof.
  intros Hrun Hin.
  destruct (buyHandler_cases be r w)
    as [[_ H]|[[_ (e & _ & H)]|[[_ (req & t' & e & _ & HI & H)]
                               |[_ (req & tb & now & _ & Ht & Hex & H)]]]];
    rewrite H in Hrun; injection Hrun as <- <-; try (left; exact Hin).
  - left. cbn [orders] in Hin.
    rewrite (insert_row_inl _ _ _ _ _ _ _ HI) in Hin. exact Hin.
  - cbn [orders rows_of] in Hin. rewrite Ht. cbn [rows_of].
    apply in_app_or in Hin. destruct Hin as [Hin|[<-|[]]]; [left; exact Hin|].
    right. cbn [row_product_id row_status].
    rewrite SanitizeInput_strip, count_denied_strip. split; reflexivity.
Qed.

Lemma added_rows_are_sanitized_witness :
  In (mkRow 1 "script" 2 "pending" 1700000000) (rows_of (orders fresh_world))
  \/ (count_denied "script" = 0%nat /\ "pending" = "pending").
Proof.
  exact (added_rows_are_sanitized both_up script_request fresh_world
           (Done script_response) script_world
           (mkRow 1 "script" 2 "pending" 1700000000)
           eq_refl (or_introl eq_refl)).
Defined.

(** ** Requests in sequence *)

Section Sequence.

Lemma insert_row_inl_next o w pid qty st t' e ch tr :
  insert_row o (orders w) pid qty st = (t', inl e) ->
  next_id w <= next_id (mkWorld t' ch tr).
Proof.
  unfold insert_row, next_id. cbn [orders].
  destruct o as [now|e0].
  - destruct (orders w) as [tb|].
    + destruct (existsb _ (rows tb)); [|discriminate].
      intros H. injection H as <- _. simpl. lia.
    + intros H. injection H as <- _. lia.
  - intros H. injection H as <- _. lia.
Qed.

(** One request either leaves the rows alone, or adds the row of the
    identifier it answers, which is the sequence value it found. *)
Lemma buyHandler_step be r w :
  exists resp w',
    buyHandler be r w = (Done resp, w')
    /\ ((response_order_id resp = None
         /\ rows_of (orders w') = rows_of (orders w)
         /\ next_id w <= next_id w')
        \/ (exists row,
              response_order_id resp = Some (next_id w)
              /\ rows_of (orders w') = (rows_of (orders w) ++ [row])%list
              /\ row_id row = next_id w
              /\ next_id w' = next_id w + 1)).
Proof.
  destruct (buyHandler_cases be r w)
    as [[_ H]|[[_ (e & _ & H)]|[[_ (req & t' & e & _ & HI & H)]
                               |[_ (req & tb & now & _ & Ht & _ & H)]]]];
    rewrite H; eexists; eexists; (split; [reflexivity|]).
  - left. repeat split. lia.
  - left. repeat split. lia.
  - left. split; [reflexivity|]. split.
    + cbn [orders]. exact (insert_row_inl _ _ _ _ _ _ _ HI).
    + exact (insert_row_inl_next _ _ _ _ _ _ _ _ _ HI).
  - right. eexists. unfold next_id. rewrite Ht. cbn [orders rows_of serial].
    split; [reflexivity|]. split; [reflexivity|]. split; reflexivity.
Qed.

Lemma ascending_weaken l : forall lo lo',
  lo <= lo' -> ascending lo' l -> ascending lo l.
Proof.
  destruct l as [|x t]; simpl; intros lo lo' Hle H; [exact I|].
  destruct H as [Hx Ht]. split; [lia|exact Ht].
Qed.

Lemma ascending_bounds l : forall lo x,
  ascending lo l -> In x l -> lo <= x.
Proof.
  induction l as [|y t IH]; simpl; intros lo x H Hin; [contradiction|].
  destruct H as [Hy Ht]. destruct Hin as [<-|Hin]; [exact Hy|].
  specialize (IH _ _ Ht Hin). lia.
Qed.

Lemma ascending_NoDup l : forall lo, ascending lo l -> NoDup l.
Proof.
  induction l as [|y t IH]; simpl; intros lo H; [constructor|].
  destruct H as [Hy Ht]. constructor; [|exact (IH _ Ht)].
  intros Hin. pose proof (ascending_bounds _ _ _ Ht Hin). lia.
Qed.

Lemma serve_spec reqs : forall w resps w',
  serve reqs w = (resps, w') ->
  List.length resps = List.length reqs
  /\ next_id w <= next_id w'
  /\ ascending (next_id w) (order_ids resps)
  /\ exists added,
       rows_of (orders w') = (rows_of (orders w) ++ added)%list
       /\ map row_id added = order_ids resps.
Proof.
  induction reqs as [|[be r] reqs IH]; intros w resps w' Hs.
  - simpl in Hs. injection Hs as <- <-. simpl.
    split; [reflexivity|]. split; [lia|]. split; [exact I|].
    exists []. rewrite app_nil_r. split; reflexivity.
  - simpl in Hs.
    destruct (buyHandler_step be r w) as (resp & w1 & Hrun & Hstep).
    rewrite Hrun in Hs.
    destruct (serve reqs w1) as [resps1 w2] eqn:Hrest.
    injection Hs as <- <-.
    destruct (IH _ _ _ Hrest) as (Hlen & Hnext & Hasc & added & Hrows & Hids).
    split; [simpl; rewrite Hlen; reflexivity|].
    destruct Hstep as [(Hnone & Hsame & Hle)|(row & Hid & Hadd & Hrow & Hsucc)].
    + split; [lia|]. simpl order_ids. rewrite Hnone.
      split; [exact (ascending_weaken _ _ _ Hle Hasc)|].
      exists added. rewrite Hrows, Hsame. split; [reflexivity|exact Hids].
    + split; [lia|]. simpl order_ids. rewrite Hid.
      split.
      * simpl. split; [lia|]. rewrite <- Hsucc. exact Hasc.
      * exists (row :: added). rewrite Hrows, Hadd, <- app_assoc.
        split; [reflexivity|]. simpl. rewrite Hrow, Hids. reflexivity.
Qed.

End Sequence.

(** X16: when requests are handled one after the other, every request is
    answered, the order identifiers answered strictly grow (so no two
    responses share one), and the rows added to the table are exactly the
    rows of those identifiers, in the same order. *)
Theorem serve_answers_distinct_ids reqs w resps w' :
  serve reqs w = (resps, w') ->
  List.length resps = List.length reqs
  /\ ascending (next_id w) (order_ids resps)
  /\ NoDup (order_ids resps)
  /\ exists added,
       rows_of (orders w') = (rows_of (orders w) ++ added)%list
       /\ map row_id added = order_ids resps.
Proof.
  intros Hs.
  destruct (serve_spec reqs w resps w' Hs) as (Hlen & _ & Hasc & Hrows).
  split; [exact Hlen|]. split; [exact Hasc|].
  split; [exact (ascending_NoDup _ _ Hasc)|exact Hrows].
Qed.

Lemma serve_answers_distinct_ids_witness :
  let run := serve [ (both_up, script_request); (store_down, negative_request);
                     (broker_down, get_request); (broker_down, negative_request) ]
                   fresh_world in
  List.length (fst run) = 4%nat
  /\ ascending (next_id fresh_world) (order_ids (fst run))
  /\ NoDup (order_ids (fst run))
  /\ exists added,
       rows_of (orders (snd run)) = (rows_of (orders fresh_world) ++ added)%list
       /\ map row_id added = order_ids (fst run).
Proof.
  exact (serve_answers_distinct_ids
           [ (both_up, script_request); (store_down, negative_request);
             (broker_down, get_request); (broker_down, negative_request) ]
           fresh_world _ _ eq_refl).
Defined.

(** ** Start-up, continued *)

Section StartupMore.

Variable b : Boot.

Lemma slept_app (s t : list Event) : slept (s ++ t) = slept s + slept t.
Proof.
  induction s as [|e s IH]; [reflexivity|].
  simpl. destruct e; rewrite IH; lia.
Qed.

Lemma slept_attempt i : slept (attempt_events b i) = 0.
Proof. unfold attempt_events. destruct (open_err b i); reflexivity. Qed.

Lemma slept_retries l :
  slept (flat_map (failed_attempt b) l) = 2 * Z.of_nat (List.length l).
Proof.
  induction l as [|i l IH]; [reflexivity|].
  simpl flat_map. unfold failed_attempt at 1.
  rewrite !slept_app, slept_attempt, IH. simpl slept.
  change (List.length (i :: l)) with (S (List.length l)). lia.
Qed.

Lemma slept_after : slept (after_connect b) = 0.
Proof.
  unfold after_connect.
  destruct (create_err b), (redis_ping_err b), (listen_err b); reflexivity.
Qed.

Lemma first_success_excludes_never k :
  (k < 10)%nat -> first_success b k -> never_connects b -> False.
Proof. intros Hk [Hok _] Hn. exact (Hn k Hk Hok). Qed.

Lemma rows_of_ensure_table t : rows_of (ensure_table t) = rows_of t.
Proof. destruct t; reflexivity. Qed.

End StartupMore.

(** X17: [main] reaches the point where it serves requests exactly when
    one of the ten connection attempts succeeds and the table creation,
    the channel ping and the listener all succeed. *)
Theorem main_serves_iff b w :
  fst (main b w) = Done tt
  <-> (exists k, (k < 10)%nat /\ first_success b k) /\ boot_ok b = true.
Proof.
  destruct (first_success_or_none b 10) as [(k & Hk & Hf)|Hn].
  - rewrite (main_connected b w k Hk Hf). cbn [fst]. split.
    + intros H. split; [exists k; split; assumption|].
      destruct (boot_ok b); [reflexivity|discriminate].
    + intros [_ ->]. reflexivity.
  - destruct (main_exhausted b w Hn) as (e & ->). cbn [fst]. split.
    + discriminate.
    + intros [(k & Hk & Hf) _]. exfalso.
      exact (first_success_excludes_never b k Hk Hf Hn).
Qed.

(** X18: start-up sleeps 2 seconds per failed connection attempt and
    nowhere else: 2k seconds when attempt k is the first to succeed, 20
    seconds when none does, and never more than 20. *)
Theorem startup_wait_budget b w :
  let t := new_events w (snd (main b w)) in
  0 <= slept t <= 20
  /\ (forall k, (k < 10)%nat -> first_success b k -> slept t = 2 * Z.of_nat k)
  /\ (never_connects b -> slept t = 20).
Proof.
  intros t.
  assert (forall k, (k < 10)%nat -> first_success b k ->
          slept t = 2 * Z.of_nat k) as Hconn.
  { intros k Hk Hf. unfold t. rewrite (main_connected b w k Hk Hf).
    cbn [snd]. rewrite new_events_app. unfold connect_events.
    rewrite !slept_app, slept_retries, slept_attempt, slept_after, length_seq.
    simpl slept. lia. }
  assert (never_connects b -> slept t = 20) as Hdead.
  { intros Hn. destruct (main_exhausted b w Hn) as (e & He).
    unfold t. rewrite He. cbn [snd]. rewrite new_events_app.
    rewrite slept_app, slept_retries, length_seq. simpl slept. lia. }
  split; [|split; assumption].
  destruct (first_success_or_none b 10) as [(k & Hk & Hf)|Hn].
  - rewrite (Hconn k Hk Hf). lia.
  - rewrite (Hdead Hn). lia.
Qed.

Lemma startup_wait_budget_witness :
  slept (new_events cold_world (snd (main late_store cold_world))) = 2 * Z.of_nat 2
  /\ slept (new_events cold_world (snd (main dead_store cold_world))) = 20.
Proof.
  split.
  - apply (proj1 (proj2 (startup_wait_budget late_store cold_world)) 2%nat).
    + lia.
    + split; [reflexivity|].
      intros [|[|j]] Hj; [discriminate|discriminate|lia].
  - apply (proj2 (proj2 (startup_wait_budget dead_store cold_world))).
    intros j _. discriminate.
Defined.

(** X19: start-up never touches the data: the channel and the rows of an
    existing table are left as they were, whether start-up gets through
    or ends the process; when it gets through, the table exists. *)
Theorem startup_preserves_data b w :
  channel (snd (main b w)) = channel w
  /\ rows_of (orders (snd (main b w))) = rows_of (orders w)
  /\ (fst (main b w) = Done tt ->
      orders (snd (main b w)) = ensure_table (orders w)
      /\ orders (snd (main b w)) <> None).
Proof.
  destruct (first_success_or_none b 10) as [(k & Hk & Hf)|Hn].
  - rewrite (main_connected b w k Hk Hf). cbn [fst snd orders channel].
    split; [reflexivity|]. split.
    + destruct (create_err b); [reflexivity|apply rows_of_ensure_table].
    + unfold boot_ok. destruct (create_err b); [discriminate|].
      intros _. split; [reflexivity|]. destruct (orders w); discriminate.
  - destruct (main_exhausted b w Hn) as (e & ->). cbn [fst snd orders channel].
    split; [reflexivity|]. split; [reflexivity|]. discriminate.
Qed.

(** X20: every way [main] ends the process is a [log.Fatalf]: the exit
    code is 1 and the last thing before the exit is a log line. *)
Theorem startup_exits_with_a_log_line b w code :
  fst (main b w) = Exited code ->
  code = 1
  /\ exists pre line,
       new_events w (snd (main b w)) = (pre ++ [EvLog line; EvExit 1])%list.
Proof.
  destruct (first_success_or_none b 10) as [(k & Hk & Hf)|Hn].
  - rewrite (main_connected b w k Hk Hf). cbn [fst snd].
    rewrite new_events_app. unfold boot_ok, after_connect.
    destruct (create_err b) as [e|].
    { intros H. injection H as <-. split; [reflexivity|].
      exists (connect_events b k ++ [EvCreateTable (Some e)])%list. eexists.
      rewrite <- app_assoc. reflexivity. }
    destruct (redis_ping_err b) as [e|].
    { intros H. injection H as <-. split; [reflexivity|].
      exists (connect_events b k ++ [EvCreateTable None; EvRedisPing (Some e)])%list.
      eexists. rewrite <- app_assoc. reflexivity. }
    destruct (listen_err b) as [e|]; [|discriminate].
    intros H. injection H as <-. split; [reflexivity|].
    exists (connect_events b k
            ++ [EvCreateTable None; EvRedisPing None; EvLog "Connected to Redis";
                EvLog ("Store API (Secure) starting on port " ++ port_of b ++ "...");
                EvListen (":" ++ port_of b) (Some e)])%list.
    eexists. rewrite <- app_assoc. reflexivity.
  - destruct (main_exhausted b w Hn) as (e & ->). cbn [fst snd].
    rewrite new_events_app.
    intros H. injection H as <-. split; [reflexivity|].
    eexists. eexists. reflexivity.
Qed.

Lemma startup_exits_with_a_log_line_witness :
  1 = 1
  /\ exists pre line,
       new_events cold_world (snd (main dead_store cold_world))
       = (pre ++ [EvLog line; EvExit 1])%list.
Proof.
  exact (startup_exits_with_a_log_line dead_store cold_world 1 eq_refl).
Defined.

(** X21: after a start-up that got through, the first accepted order
    cannot fail for a missing table or a taken identifier: a POST whose
    body decodes and whose insert the store takes is answered 200 with
    the next value of the sequence, which is 1 when start-up had to
    create the table. *)
Theorem first_request_after_startup b w w1 be r req now :
  main b w = (Done tt, w1) ->
  world_wf w ->
  Method r = MethodPost ->
  Decode (Body r) = inr req ->
  insert_res be = Accepted now ->
  (exists w2,
     buyHandler be r w1
     = (Done (mkResponse 200 "application/json"
                (JSON (ok_body (next_id w1) (SanitizeInput (ProductID req))))),
        w2))
  /\ (orders w = None -> next_id w1 = 1).
Proof.
  intros Hmain Hwf HM HD Ho.
  destruct (first_success_or_none b 10) as [(k & Hk & Hf)|Hn].
  2:{ destruct (main_exhausted b w Hn) as (e & He). rewrite He in Hmain.
      discriminate Hmain. }
  rewrite (main_connected b w k Hk Hf) in Hmain.
  unfold boot_ok in Hmain.
  destruct (create_err b); [discriminate Hmain|].
  injection Hmain as _ <-.
  assert (exists tb, ensure_table (orders w) = Some tb /\ table_wf tb
                     /\ (orders w = None -> serial tb = 1))
    as (tb & Ht & Htwf & Hone).
  { unfold world_wf in Hwf. destruct (orders w) as [tb|].
    - exists tb. repeat split; try apply Hwf. discriminate.
    - eexists. split; [reflexivity|]. split; [|reflexivity].
      split; [constructor|]. intros row []. }
  unfold next_id. cbn [orders]. rewrite Ht.
  split; [|exact Hone].
  eexists.
  apply (buyHandler_persisted be r _ req
           (Some (mkTable (rows tb ++ [mkRow (serial tb)
                             (SanitizeInput (ProductID req)) (Quantity req)
                             "pending" now]) (serial tb + 1)))
           (serial tb) HM HD).
  cbn [orders]. rewrite Ho. unfold insert_row.
  rewrite (table_wf_fresh_id tb Htwf). reflexivity.
Qed.

Lemma first_request_after_startup_witness :
  (exists w2,
     buyHandler both_up script_request (snd (main late_store cold_world))
     = (Done (mkResponse 200 "application/json"
                (JSON (ok_body (next_id (snd (main late_store cold_world)))
                               (SanitizeInput "<script>")))),
        w2))
  /\ (orders cold_world = None -> next_id (snd (main late_store cold_world)) = 1).
Proof.
  exact (first_request_after_startup late_store cold_world
           (snd (main late_store cold_world)) both_up script_request
           (mkOrderRequest "<script>" 2) 1700000000
           eq_refl I eq_refl eq_refl eq_refl).
Defined.

(** X22: the answer to a request and the table it leaves do not depend
    on the broker: with the same store answer, a working and a failing
    publish give the same response and the same table for every request. *)
Theorem response_independent_of_broker ins p1 p2 r w :
  fst (buyHandler (mkBackend ins p1) r w) = fst (buyHandler (mkBackend ins p2) r w)
  /\ orders (snd (buyHandler (mkBackend ins p1) r w))
     = orders (snd (buyHandler (mkBackend ins p2) r w)).
Proof.
  destruct (string_dec (Method r) MethodPost) as [HM|HM].
  2:{ rewrite !(buyHandler_not_post _ r w HM). split; reflexivity. }
  destruct (Decode (Body r)) as [e|req] eqn:HD.
  { rewrite !(buyHandler_bad_body _ r w e HM HD). split; reflexivity. }
  destruct (insert_row ins (orders w) (SanitizeInput (ProductID req))
              (Quantity req) "pending") as [t' [e|id]] eqn:HI.
  - rewrite (buyHandler_refused (mkBackend ins p1) r w req t' e HM HD HI).
    rewrite (buyHandler_refused (mkBackend ins p2) r w req t' e HM HD HI).
    split; reflexivity.
  - rewrite (buyHandler_persisted (mkBackend ins p1) r w req t' id HM HD HI).
    rewrite (buyHandler_persisted (mkBackend ins p2) r w req t' id HM HD HI).
    split; reflexivity.
Qed.

(** X23: a response carries an order identifier exactly when its status
    is 200; the 4xx and 5xx answers are plain text without one. *)
Theorem order_id_iff_200 be r w resp w' :
  buyHandler be r w = (Done resp, w') ->
  (response_order_id resp <> None <-> StatusCode resp = 200)
  /\ (StatusCode resp <> 200 -> ContentType resp = "text/plain; charset=utf-8").
Proof.
  intros Hrun.
  destruct (buyHandler_cases be r w)
    as [[_ H]|[[_ (e & _ & H)]|[[_ (req & t' & e & _ & _ & H)]
                               |[_ (req & tb & now & _ & _ & _ & H)]]]];
    rewrite H in Hrun; injection Hrun as <- <-.
  1-3: (split; [split; intros Hx;
                [exfalso; apply Hx; reflexivity | cbv in Hx; discriminate Hx]
               | intros _; reflexivity]).
  split; [split; intros Hx; [reflexivity|discriminate]|].
  intros Hx. exfalso. apply Hx. reflexivity.
Qed.

Lemma order_id_iff_200_witness :
  (response_order_id script_response <> None <-> StatusCode script_response = 200)
  /\ (StatusCode script_response <> 200 ->
      ContentType script_response = "text/plain; charset=utf-8").
Proof.
  exact (order_id_iff_200 both_up script_request fresh_world
           script_response script_world eq_refl).
Defined.

(** X24: there is no idempotency key: the same request submitted twice
    in a row to a well-formed table, the store taking both inserts, is
    answered 200 twice with consecutive identifiers and leaves two rows
    with the same product identifier and quantity. *)
Theorem resubmission_creates_a_second_order be1 be2 r w tb req now1 now2 :
  orders w = Some tb ->
  table_wf tb ->
  Method r = MethodPost ->
  Decode (Body r) = inr req ->
  insert_res be1 = Accepted now1 ->
  insert_res be2 = Accepted now2 ->
  let pid := SanitizeInput (ProductID req) in
  let id := serial tb in
  exists w',
    serve [(be1, r); (be2, r)] w
    = ([ mkResponse 200 "application/json" (JSON (ok_body id pid));
         mkResponse 200 "application/json" (JSON (ok_body (id + 1) pid)) ], w')
    /\ rows_of (orders w')
       = (rows tb ++ [ mkRow id pid (Quantity req) "pending" now1;
                       mkRow (id + 1) pid (Quantity req) "pending" now2 ])%list.
Proof.
  intros Ht Hwf HM HD Ho1 Ho2 pid id.
  set (tb1 := mkTable (rows tb ++ [mkRow id pid (Quantity req) "pending" now1])
                      (id + 1)).
  set (tb2 := mkTable (rows tb1 ++ [mkRow (id + 1) pid (Quantity req) "pending" now2])
                      (id + 1 + 1)).
  assert (insert_row (Accepted now1) (Some tb) pid (Quantity req) "pending"
          = (Some tb1, inr id)) as HI1.
  { unfold insert_row. fold id. unfold id at 1.
    rewrite (table_wf_fresh_id tb Hwf). reflexivity. }
  destruct (table_wf_insert _ _ _ _ _ _ _ Hwf HI1) as (tb1' & Heq & Hwf1 & _).
  injection Heq as <-.
  assert (insert_row (Accepted now2) (Some tb1) pid (Quantity req) "pending"
          = (Some tb2, inr (id + 1))) as HI2.
  { unfold insert_row.
    change (serial tb1) with (id + 1).
    pose proof (table_wf_fresh_id tb1 Hwf1) as Hfresh.
    change (serial tb1) with (id + 1) in Hfresh.
    rewrite Hfresh. reflexivity. }
  pose proof (buyHandler_persisted be1 r w req (Some tb1) id HM HD) as H1.
  rewrite Ho1, Ht in H1. specialize (H1 HI1). cbv zeta in H1.
  simpl serve. rewrite H1.
  match goal with
  | |- context [buyHandler be2 r ?w1] =>
      pose proof (buyHandler_persisted be2 r w1 req (Some tb2) (id + 1) HM HD) as H2
  end.
  cbn [orders] in H2. rewrite Ho2 in H2. specialize (H2 HI2). cbv zeta in H2.
  rewrite H2.
  eexists. split; [reflexivity|].
  cbn [orders rows_of]. unfold tb2, tb1. cbn [rows].
  rewrite <- app_assoc. reflexivity.
Qed.

Lemma resubmission_creates_a_second_order_witness :
  exists w',
    serve [(both_up, script_request); (broker_down, script_request)] fresh_world
    = ([ mkResponse 200 "application/json" (JSON (ok_body 1 "script"));
         mkResponse 200 "application/json" (JSON (ok_body (1 + 1) "script")) ], w')
    /\ rows_of (orders w')
       = ([] ++ [ mkRow 1 "script" 2 "pending" 1700000000;
                  mkRow (1 + 1) "script" 2 "pending" 1700000000 ])%list.
Proof.
  apply (resubmission_creates_a_second_order both_up broker_down script_request
           fresh_world (mkTable [] 1) (mkOrderRequest "<script>" 2)
           1700000000 1700000000 eq_refl).
  - split; [constructor|]. intros row [].
  - reflexivity.
  - reflexivity.
  - reflexivity.
  - reflexivity.
Defined.

(** ** The order processor *)

Lemma OrderProcessor_loop_run n : forall w,
  OrderProcessor.loop n w
  = (Done tt,
     mkWorld (orders w) (channel w)
             (trace w ++ List.concat (repeat OrderProcessor.iteration n))).
Proof.
  induction n as [|n IH]; intros w.
  - simpl. unfold ret. rewrite app_nil_r. destruct w; reflexivity.
  - simpl OrderProcessor.loop. unfold bind, Println, Sleep, emit. simpl.
    rewrite IH. simpl. rewrite <- !app_assoc. reflexivity.
Qed.

Lemma slept_iterations n :
  slept (List.concat (repeat OrderProcessor.iteration n)) = 10 * Z.of_nat n.
Proof.
  induction n as [|n IH]; [reflexivity|].
  change (slept (List.concat (repeat OrderProcessor.iteration (S n))))
    with (10 + slept (List.concat (repeat OrderProcessor.iteration n))).
  rewrite IH. lia.
Qed.

(** X25: the worker does nothing but log and sleep: after its start line
    each iteration logs one line and sleeps 10 seconds; for every number
    of iterations it is still running, and the table and the channel are
    as it found them (it never reads an order or a notification). *)
Theorem worker_only_logs_and_sleeps n w :
  let evs := EvLog "Order Processor started..."
             :: List.concat (repeat OrderProcessor.iteration n) in
  OrderProcessor.main n w
  = (Done tt, mkWorld (orders w) (channel w) (trace w ++ evs))
  /\ slept evs = 10 * Z.of_nat n
  /\ count is_insert evs = 0%nat.
Proof.
  split; [|split].
  - unfold OrderProcessor.main, bind, Println, emit.
    rewrite OrderProcessor_loop_run. simpl. rewrite <- app_assoc. reflexivity.
  - simpl slept. apply slept_iterations.
  - unfold count. simpl. induction n as [|n IH]; [reflexivity|exact IH].
Qed.

(** ** More edge behaviour *)

(** X26: only an object or [null] can be a request body: a POST whose
    body is a JSON array, string, number or boolean is answered 400 and
    changes nothing. *)
Theorem non_object_body_is_rejected be r w v :
  Method r = MethodPost ->
  Body r = Some v ->
  v <> Json.Null ->
  (forall ms, v <> Json.Object ms) ->
  buyHandler be r w
  = (Done (mkResponse 400 "text/plain; charset=utf-8"
             (Text ("Invalid request body" ++ newline))), w).
Proof.
  intros HM HB Hnull Hobj.
  assert (exists e, Decode (Body r) = inl e) as [e HD].
  { rewrite HB. unfold Decode.
    destruct v as [| | | | |ms]; try (eexists; reflexivity).
    - contradiction.
    - exfalso. exact (Hobj ms eq_refl). }
  exact (buyHandler_bad_body be r w e HM HD).
Qed.

Lemma non_object_body_is_rejected_witness :
  buyHandler both_up (mkRequest "POST" (Some (Json.Array []))) fresh_world
  = (Done (mkResponse 400 "text/plain; charset=utf-8"
             (Text ("Invalid request body" ++ newline))), fresh_world).
Proof.
  apply (non_object_body_is_rejected both_up
           (mkRequest "POST" (Some (Json.Array []))) fresh_world (Json.Array [])
           eq_refl eq_refl).
  - discriminate.
  - discriminate.
Defined.

(** X27: the handler reads nothing but the request, the services'
    answers and the table: in two worlds with the same table it gives the
    same response, leaves the same table and makes the same calls,
    whatever the channel and the trace hold. *)
Theorem buyHandler_depends_on_table_only be r t ch1 tr1 ch2 tr2 :
  let w1 := mkWorld t ch1 tr1 in
  let w2 := mkWorld t ch2 tr2 in
  fst (buyHandler be r w1) = fst (buyHandler be r w2)
  /\ orders (snd (buyHandler be r w1)) = orders (snd (buyHandler be r w2))
  /\ new_events w1 (snd (buyHandler be r w1))
     = new_events w2 (snd (buyHandler be r w2)).
Proof.
  intros w1 w2.
  destruct (string_dec (Method r) MethodPost) as [HM|HM].
  2:{ rewrite !(buyHandler_not_post be r _ HM). cbn [fst snd].
      rewrite !new_events_same. repeat split. }
  destruct (Decode (Body r)) as [e|req] eqn:HD.
  { rewrite !(buyHandler_bad_body be r _ e HM HD). cbn [fst snd].
    rewrite !new_events_same. repeat split. }
  destruct (insert_row (insert_res be) t (SanitizeInput (ProductID req))
              (Quantity req) "pending") as [t' [e|id]] eqn:HI.
  - rewrite (buyHandler_refused be r w1 req t' e HM HD HI).
    rewrite (buyHandler_refused be r w2 req t' e HM HD HI).
    cbn [fst snd]. rewrite !new_events_app. repeat split.
  - rewrite (buyHandler_persisted be r w1 req t' id HM HD HI).
    rewrite (buyHandler_persisted be r w2 req t' id HM HD HI).
    cbn [fst snd]. rewrite !new_events_app. repeat split.
Qed.

Section ListenAddress.

Variable b : Boot.

Lemma count_zero_not_in p (l : list Event) x :
  count p l = 0%nat -> In x l -> p x = false.
Proof.
  unfold count. induction l as [|y l IH]; simpl; intros H Hin; [contradiction|].
  destruct (p y) eqn:Hy; [discriminate H|].
  destruct Hin as [<-|Hin]; [exact Hy|exact (IH H Hin)].
Qed.

Lemma listen_in_after addr e :
  In (EvListen addr e) (after_connect b) -> addr = ":" ++ port_of b.
Proof.
  unfold after_connect.
  destruct (create_err b), (redis_ping_err b), (listen_err b); simpl;
    intros H;
    repeat (destruct H as [H|H]; [try discriminate H|]); try contradiction;
    injection H as <- _; reflexivity.
Qed.

End ListenAddress.

(** X28: whenever [main] starts the listener, the address is [":"]
    followed by the value of [PORT], and [":8080"] when [PORT] is empty. *)
Theorem listen_address_defaults_to_8080 b w addr e :
  In (EvListen addr e) (new_events w (snd (main b w))) ->
  addr = ":" ++ (if String.eqb (PORT b) "" then "8080" else PORT b).
Proof.
  destruct (first_success_or_none b 10) as [(k & Hk & Hf)|Hn].
  - rewrite (main_connected b w k Hk Hf). cbn [snd]. rewrite new_events_app.
    intros Hin. apply in_app_or in Hin. destruct Hin as [Hin|Hin].
    + exfalso. unfold connect_events in Hin.
      assert (count is_listen
                (flat_map (failed_attempt b) (seq 0 k)
                 ++ attempt_events b k ++ [EvLog "Connected to Database"]) = 0%nat)
        as Hc.
      { rewrite !count_app, count_other_retries, count_other_attempt by reflexivity.
        reflexivity. }
      pose proof (count_zero_not_in _ _ _ Hc Hin) as Hx. discriminate Hx.
    + exact (listen_in_after b addr e Hin).
  - destruct (main_exhausted b w Hn) as (e0 & ->). cbn [snd].
    rewrite new_events_app. intros Hin. exfalso.
    assert (count is_listen
              (flat_map (failed_attempt b) (seq 0 10)
               ++ [EvLog ("Could not connect to database: " ++ e0); EvExit 1]) = 0%nat)
      as Hc.
    { rewrite count_app, count_other_retries by reflexivity. reflexivity. }
    pose proof (count_zero_not_in _ _ _ Hc Hin) as Hx. discriminate Hx.
Qed.

Lemma listen_address_defaults_to_8080_witness :
  ":8080" = ":" ++ (if String.eqb (PORT late_store) "" then "8080" else PORT late_store).
Proof.
  apply (listen_address_defaults_to_8080 late_store cold_world ":8080" None).
  vm_compute. do 15 right. left. reflexivity.
Defined.
